(** * Frågekonstruktören: a shallow embedding of [fk.py]

    The program is a Streamlit script: it extracts the text of an uploaded
    document, asks a chat-completion endpoint for learning objectives and
    for multiple-choice questions, decodes the JSON replies and keeps the
    results in the per-session dictionary [st.session_state].

    Python values are embedded as follows.
    - [str] is a list of Unicode code points ([N]); the methods of [str]
      used by the script ([strip], [startswith], [endswith], [splitlines],
      [join]) are written out below.
    - what [json.loads] returns is a [value]; a Python [dict] is an
      association list in insertion order, updated in place.
    - [st.session_state] is a finite map from key names to values.
    - code that reports to the page ([st.error], [st.success], ...) appends
      an [event] to the page log; code that may raise runs in a small
      state-and-exception monad, with [try ... except Exception] as a
      combinator. *)

From Stdlib Require Import ZArith NArith Lia Ascii String.
From stdpp Require Import gmap strings list.

Open Scope nat_scope.

(** ** Python strings *)

Definition char := N.
Definition str := list char.

(** An ASCII literal of the source as a [str]. *)
Definition py (s : string) : str :=
  (fun a => N_of_ascii a) <$> list_ascii_of_string s.

(** [str.isspace] on one code point: the white-space set that
    [str.strip()] removes. *)
Definition py_isspace (c : char) : bool :=
  ((9 <=? c) && (c <=? 13) || (28 <=? c) && (c <=? 32)
   || (c =? 133) || (c =? 160) || (c =? 5760)
   || (8192 <=? c) && (c <=? 8202)
   || (c =? 8232) || (c =? 8233) || (c =? 8239) || (c =? 8287)
   || (c =? 12288))%N.

(** The line boundaries of [str.splitlines]: LF, VT, FF, CR, FS, GS, RS,
    NEL, LINE SEPARATOR and PARAGRAPH SEPARATOR. *)
Definition py_islinebreak (c : char) : bool :=
  ((10 <=? c) && (c <=? 13) || (28 <=? c) && (c <=? 30)
   || (c =? 133) || (c =? 8232) || (c =? 8233))%N.

Fixpoint lstrip (s : str) : str :=
  match s with
  | c :: r => if py_isspace c then lstrip r else s
  | [] => []
  end.

Definition rstrip (s : str) : str := rev (lstrip (rev s)).

(** [s.strip()] *)
Definition strip (s : str) : str := rstrip (lstrip s).

(** [s.startswith(prefix)] *)
Fixpoint startswith (s prefix : str) : bool :=
  match prefix, s with
  | [], _ => true
  | p :: prefix', c :: s' => (c =? p)%N && startswith s' prefix'
  | _ :: _, [] => false
  end.

(** [s.endswith(suffix)] *)
Definition endswith (s suffix : str) : bool :=
  startswith (rev s) (rev suffix).

(** Puts [c] in front of the first line of [ls]. *)
Definition cons_line (c : char) (ls : list str) : list str :=
  match ls with
  | [] => [[c]]
  | l :: ls' => (c :: l) :: ls'
  end.

(** [s.splitlines()]: the lines of [s] without their terminators; CR LF
    is one terminator, and a terminator at the very end opens no line. *)
Fixpoint splitlines (s : str) : list str :=
  match s with
  | [] => []
  | c :: r =>
      if (c =? 13)%N then
        match r with
        | 10%N :: r' => [] :: splitlines r'
        | _ => [] :: splitlines r
        end
      else if py_islinebreak c then [] :: splitlines r
      else
        match r with
        | [] => [[c]]
        | _ :: _ => cons_line c (splitlines r)
        end
  end.

(** [sep.join(parts)] *)
Fixpoint join (sep : str) (parts : list str) : str :=
  match parts with
  | [] => []
  | [p] => p
  | p :: ps => p ++ sep ++ join sep ps
  end.

Definition LF : str := [10%N].
Definition fence : str := py "```".


(** ** Exceptions and results *)

(** Instances of [Exception] by class, as [except Exception] sees them.
    [ExternalError] stands for whatever the document libraries and the
    completion client raise, with its message. *)
Inductive exn :=
| JSONDecodeError
| RecursionError
| ValueError
| IndexError
| KeyError
| AttributeError
| TypeError
| UnicodeDecodeError
| ExternalError (msg : str).

(** What a call of a library function does: it returns, or it raises. *)
Inductive result (A : Type) :=
| Ok (a : A)
| Raise (e : exn).
Arguments Ok {A} a.
Arguments Raise {A} e.

Set Warnings "-register-all,-abstract-large-number".

(** ** Decoded JSON: the values [json.loads] returns

    [JFloat] keeps the literal that [float(...)] is applied to, the
    constants [NaN], [Infinity] and [-Infinity] included. A [dict] keeps
    its keys in insertion order. *)
Inductive value :=
| JNull
| JBool (b : bool)
| JInt (z : Z)
| JFloat (literal : str)
| JString (s : str)
| JArray (items : list value)
| JObject (fields : list (str * value)).

Definition str_eqb (a b : str) : bool := bool_decide (a = b).

(** [d[k] = v] on a dict: replaces the value of an existing key where
    it stands, appends a new key at the end. *)
Fixpoint dict_set {V : Type} (d : list (str * V)) (k : str) (v : V)
  : list (str * V) :=
  match d with
  | [] => [(k, v)]
  | (k', v') :: d' =>
      if str_eqb k' k then (k', v) :: d' else (k', v') :: dict_set d' k v
  end.

(** [d.get(k)] as an option. *)
Fixpoint dict_lookup {V : Type} (d : list (str * V)) (k : str) : option V :=
  match d with
  | [] => None
  | (k', v') :: d' => if str_eqb k' k then Some v' else dict_lookup d' k
  end.

(** [d.get(k, default)] *)
Definition dict_get {V : Type} (d : list (str * V)) (k : str) (default : V) : V :=
  match dict_lookup d k with
  | Some v => v
  | None => default
  end.

Definition dict_keys {V : Type} (d : list (str * V)) : list str := fst <$> d.

(** ** [json.loads], after CPython's scanner

    White space is space, tab, LF and CR. Strings are scanned in strict
    mode: a raw control character (below U+0020) is an error. Each nested
    array or object enters one level of recursion, and the interpreter
    raises [RecursionError] when [recursion_limit] levels are used up. An
    integer literal of more than [int_max_str_digits] digits raises
    [ValueError]. *)

Definition is_json_ws (c : char) : bool :=
  ((c =? 32) || (c =? 9) || (c =? 10) || (c =? 13))%N.

Fixpoint skip_ws (s : str) : str :=
  match s with
  | c :: r => if is_json_ws c then skip_ws r else s
  | [] => []
  end.

Definition is_digit (c : char) : bool := ((48 <=? c) && (c <=? 57))%N.

(** The longest prefix of digits, and what follows it. *)
Fixpoint span_digits (s : str) : str * str :=
  match s with
  | c :: r =>
      if is_digit c then let '(ds, r') := span_digits r in (c :: ds, r')
      else ([], s)
  | [] => ([], [])
  end.

Definition digits_value (ds : str) : Z :=
  fold_left (fun acc c => (10 * acc + (Z.of_N c - 48))%Z) ds 0%Z.

Definition int_max_str_digits : nat := 4300.

(** The fraction [.d+] of a number, if one starts here. *)
Definition scan_frac (s : str) : str * str :=
  match s with
  | dot :: d :: r =>
      if (dot =? 46)%N && is_digit d then
        let '(ds, r') := span_digits r in (dot :: d :: ds, r')
      else ([], s)
  | _ => ([], s)
  end.

(** The exponent [[eE][-+]?d+] of a number, if one starts here. *)
Definition scan_exp (s : str) : str * str :=
  match s with
  | e :: r =>
      if ((e =? 101) || (e =? 69))%N then
        let '(sign, r1) :=
          match r with
          | c :: r' => if ((c =? 45) || (c =? 43))%N then ([c], r') else ([], r)
          | [] => ([], r)
          end in
        match span_digits r1 with
        | ([], _) => ([], s)
        | (ds, r2) => (e :: sign ++ ds, r2)
        end
      else ([], s)
  | [] => ([], s)
  end.

(** A number at the head of [s]: an optional minus sign, then [0] or a
    digit from 1 to 9 with further digits, then an optional fraction and
    an optional exponent. *)
Definition match_number (s : str) : result (value * str) :=
  let '(sign, s1) :=
    match s with
    | c :: r => if (c =? 45)%N then ([c], r) else ([], s)
    | [] => ([], s)
    end in
  match s1 with
  | c :: r =>
      if is_digit c then
        let '(ds, r1) := if (c =? 48)%N then ([], r) else span_digits r in
        let '(frac, r2) := scan_frac r1 in
        let '(ex, r3) := scan_exp r2 in
        match frac ++ ex with
        | [] =>
            if int_max_str_digits <? length (c :: ds) then Raise ValueError
            else
              let n := digits_value (c :: ds) in
              Ok (JInt (match sign with [] => n | _ => (- n)%Z end), r3)
        | _ => Ok (JFloat (sign ++ c :: ds ++ frac ++ ex), r3)
        end
      else Raise JSONDecodeError
  | [] => Raise JSONDecodeError
  end.

Definition hex_digit (c : char) : option N :=
  (if (48 <=? c) && (c <=? 57) then Some (c - 48)
   else if (97 <=? c) && (c <=? 102) then Some (c - 87)
   else if (65 <=? c) && (c <=? 70) then Some (c - 55)
   else None)%N.

Definition hex4 (a b c d : char) : option N :=
  match hex_digit a, hex_digit b, hex_digit c, hex_digit d with
  | Some x, Some y, Some z, Some w => Some (((x * 16 + y) * 16 + z) * 16 + w)%N
  | _, _, _, _ => None
  end.

Definition is_high_surrogate (u : N) : bool := ((55296 <=? u) && (u <=? 56319))%N.
Definition is_low_surrogate (u : N) : bool := ((56320 <=? u) && (u <=? 57343))%N.
Definition join_surrogates (hi lo : N) : N :=
  (65536 + ((hi - 55296) * 1024 + (lo - 56320)))%N.

(** The character a one-letter escape stands for. *)
Definition unescape (c : char) : option char :=
  (if c =? 34 then Some 34 else if c =? 92 then Some 92
   else if c =? 47 then Some 47 else if c =? 98 then Some 8
   else if c =? 102 then Some 12 else if c =? 110 then Some 10
   else if c =? 114 then Some 13 else if c =? 116 then Some 9
   else None)%N.

Definition push_char (c : char) (r : option (str * str)) : option (str * str) :=
  match r with
  | Some (t, rest) => Some (c :: t, rest)
  | None => None
  end.

(** The body of a string literal, from just after its opening quote: the
    decoded text and what follows the closing quote. [None] is a
    [JSONDecodeError]. *)
Fixpoint scanstring (s : str) : option (str * str) :=
  match s with
  | [] => None
  | c :: r =>
      if (c =? 34)%N then Some ([], r)
      else if (c =? 92)%N then
        match r with
        | [] => None
        | e :: r1 =>
            if (e =? 117)%N then
              match r1 with
              | h1 :: h2 :: h3 :: h4 :: r2 =>
                  match hex4 h1 h2 h3 h4 with
                  | None => None
                  | Some u =>
                      match r2 with
                      | b :: x :: l1 :: l2 :: l3 :: l4 :: ((_ :: _) as r3) =>
                          if is_high_surrogate u && (b =? 92)%N && (x =? 117)%N then
                            match hex4 l1 l2 l3 l4 with
                            | None => None
                            | Some u2 =>
                                if is_low_surrogate u2
                                then push_char (join_surrogates u u2) (scanstring r3)
                                else push_char u (scanstring r2)
                            end
                          else push_char u (scanstring r2)
                      | _ => push_char u (scanstring r2)
                      end
                  end
              | _ => None
              end
            else
              match unescape e with
              | Some c' => push_char c' (scanstring r1)
              | None => None
              end
        end
      else if (c <=? 31)%N then None
      else push_char c (scanstring r)
  end.

(** [scan_once]: one JSON term at the head of [s], and what follows it.
    [fuel] bounds the number of calls and [None] means it ran out, which
    [scan_once_fuel] below excludes for the fuel [json_loads] gives;
    [depth] is the number of recursion levels still free. *)
Fixpoint scan_once (fuel depth : nat) (s : str) : option (result (value * str)) :=
  match fuel with
  | 0 => None
  | S fuel' =>
      match s with
      | [] => Some (Raise JSONDecodeError)
      | c :: r =>
          if (c =? 34)%N then
            match scanstring r with
            | Some (t, r') => Some (Ok (JString t, r'))
            | None => Some (Raise JSONDecodeError)
            end
          else if (c =? 123)%N then
            match depth with
            | 0 => Some (Raise RecursionError)
            | S depth' =>
                match skip_ws r with
                | c1 :: r1 =>
                    if (c1 =? 125)%N then Some (Ok (JObject [], r1))
                    else parse_object fuel' depth' [] (c1 :: r1)
                | [] => Some (Raise JSONDecodeError)
                end
            end
          else if (c =? 91)%N then
            match depth with
            | 0 => Some (Raise RecursionError)
            | S depth' =>
                match skip_ws r with
                | c1 :: r1 =>
                    if (c1 =? 93)%N then Some (Ok (JArray [], r1))
                    else parse_array fuel' depth' [] (c1 :: r1)
                | [] => Some (Raise JSONDecodeError)
                end
            end
          else if startswith s (py "null") then Some (Ok (JNull, drop 4 s))
          else if startswith s (py "true") then Some (Ok (JBool true, drop 4 s))
          else if startswith s (py "false") then Some (Ok (JBool false, drop 5 s))
          else if startswith s (py "NaN") then Some (Ok (JFloat (py "NaN"), drop 3 s))
          else if startswith s (py "Infinity")
               then Some (Ok (JFloat (py "Infinity"), drop 8 s))
          else if startswith s (py "-Infinity")
               then Some (Ok (JFloat (py "-Infinity"), drop 9 s))
          else Some (match_number s)
      end
  end

(** The items of an array, from the start of an item; [acc] holds the
    items read so far. *)
with parse_array (fuel depth : nat) (acc : list value) (s : str)
  : option (result (value * str)) :=
  match fuel with
  | 0 => None
  | S fuel' =>
      match scan_once fuel' depth s with
      | None => None
      | Some (Raise e) => Some (Raise e)
      | Some (Ok (v, r)) =>
          match skip_ws r with
          | c :: r1 =>
              if (c =? 93)%N then Some (Ok (JArray (acc ++ [v]), r1))
              else if (c =? 44)%N
                   then parse_array fuel' depth (acc ++ [v]) (skip_ws r1)
              else Some (Raise JSONDecodeError)
          | [] => Some (Raise JSONDecodeError)
          end
      end
  end

(** The members of an object, from where a key has to start; a key read
    twice keeps its place and takes the later value. *)
with parse_object (fuel depth : nat) (acc : list (str * value)) (s : str)
  : option (result (value * str)) :=
  match fuel with
  | 0 => None
  | S fuel' =>
      match s with
      | q :: r =>
          if (q =? 34)%N then
            match scanstring r with
            | None => Some (Raise JSONDecodeError)
            | Some (key, r1) =>
                match skip_ws r1 with
                | colon :: r2 =>
                    if (colon =? 58)%N then
                      match scan_once fuel' depth (skip_ws r2) with
                      | None => None
                      | Some (Raise e) => Some (Raise e)
                      | Some (Ok (v, r3)) =>
                          match skip_ws r3 with
                          | c :: r4 =>
                              if (c =? 125)%N
                              then Some (Ok (JObject (dict_set acc key v), r4))
                              else if (c =? 44)%N
                              then parse_object fuel' depth (dict_set acc key v)
                                     (skip_ws r4)
                              else Some (Raise JSONDecodeError)
                          | [] => Some (Raise JSONDecodeError)
                          end
                      end
                    else Some (Raise JSONDecodeError)
                | [] => Some (Raise JSONDecodeError)
                end
            end
          else Some (Raise JSONDecodeError)
      | [] => Some (Raise JSONDecodeError)
      end
  end.

(** [json.loads(s)] for a [str]: no byte-order mark, one term between
    optional white space, nothing after it. *)
Definition json_loads (recursion_limit : nat) (s : str) : result value :=
  if startswith s [65279%N] then Raise JSONDecodeError
  else
    match scan_once (S (2 * length s)) recursion_limit (skip_ws s) with
    | Some (Ok (v, r)) =>
        match skip_ws r with
        | [] => Ok v
        | _ :: _ => Raise JSONDecodeError
        end
    | Some (Raise e) => Raise e
    | None => Raise RecursionError
    end.

(** ** State and exceptions

    A piece of the script returns or raises. [Unmodelled] marks the one
    place where the model does not say what the script does: a key of
    [mcqs_all] that is a number, a truth value or [None], whose equality
    with other keys would need floating point. No [except] catches it. *)
Inductive outcome (A : Type) :=
| Return (a : A)
| Raised (e : exn)
| Unmodelled.
Arguments Return {A} a.
Arguments Raised {A} e.
Arguments Unmodelled {A}.

(** A computation over a state [S] leaves a state whatever its outcome:
    what was written before an exception stays written. *)
Definition M (S A : Type) : Type := S -> outcome A * S.

Definition ret {S A} (a : A) : M S A := fun s => (Return a, s).
Definition bind {S A B} (m : M S A) (k : A -> M S B) : M S B :=
  fun s =>
    match m s with
    | (Return a, s') => k a s'
    | (Raised e, s') => (Raised e, s')
    | (Unmodelled, s') => (Unmodelled, s')
    end.
Definition lift {S A} (r : result A) : M S A :=
  fun s =>
    match r with
    | Ok a => (Return a, s)
    | Raise e => (Raised e, s)
    end.
Definition modify {S} (f : S -> S) : M S unit := fun s => (Return tt, f s).

(** [try: body except Exception as e: handler(e)] *)
Definition try_except {S A} (body : M S A) (handler : exn -> M S A) : M S A :=
  fun s =>
    match body s with
    | (Return a, s') => (Return a, s')
    | (Raised e, s') => handler e s'
    | (Unmodelled, s') => (Unmodelled, s')
    end.

Notation "'let!' x ':=' c 'in' k" := (bind c (fun x => k))
  (at level 10, x name, c at level 100, k at level 200).
Notation "c ';;;' k" := (bind c (fun _ => k))
  (at level 100, k at level 200, right associativity).

(** ** The page, the session and the completion endpoint *)

(** A prompt by its slots; the fixed Swedish wording around them is not
    part of the model. *)
Inductive request :=
| learning_objectives_prompt (num_goals : nat) (faktabas : value)
| mcq_prompt (larandemal : value) (indikatorer : str) (faktabas : value).

(** What [client.chat.completions.create] does with a request: it
    raises, or it returns a response whose first choice has the given
    [message.content], which may be [None]. *)
Inductive completion :=
| api_raises (e : exn)
| api_content (content : option str).

(** What the script shows on the page, by call site. *)
Inductive event :=
| error_extract (e : exn)        (* "Fel vid extrahering av text: ..." *)
| error_empty_response           (* "API:s svar var tomt." *)
| error_json (json_err : exn)    (* "Fel vid tolkning av JSON-svar ..." *)
| write_raw_output (raw_output : str)
| error_objectives (e : exn)     (* "Fel vid generering av larandemal ..." *)
| error_mcqs (e : exn)           (* "Fel vid generering av MCQs: ..." *)
| success_upload (name : str)    (* "Filen ... har laddats upp!" *)
| error_no_text.                 (* "Kunde inte extrahera text ..." *)

Record world := World {
  session_state : gmap string value;
  page : list event;          (* shown so far, oldest first *)
  requests : list request;    (* sent to the endpoint so far, oldest first *)
}.

(** The world after one more event on the page. *)
Definition shown (ev : event) (w : world) : world :=
  World (session_state w) (page w ++ [ev]) (requests w).

(** The world after one more request to the endpoint. *)
Definition sent (prompt : request) (w : world) : world :=
  World (session_state w) (page w) (requests w ++ [prompt]).

(** The world after [st.session_state[key] = v]. *)
Definition stored (key : string) (v : value) (w : world) : world :=
  World (<[key := v]> (session_state w)) (page w) (requests w).

Definition st_show (ev : event) : M world unit := modify (shown ev).

Definition session_set (key : string) (v : value) : M world unit :=
  modify (stored key v).

(** [st.session_state[key]] *)
Definition session_get (key : string) : M world value :=
  fun w =>
    match session_state w !! key with
    | Some v => (Return v, w)
    | None => (Raised KeyError, w)
    end.

(** ** Reset button (fk.py, lines 12-17)

    [pop(key, None)] on each of the three keys; the rerun that follows
    starts the script again on the same session. *)
Definition reset (st : gmap string value) : gmap string value :=
  foldl (fun st key => delete key st) st
        ["faktabas"; "larandemal_och_indikatorer"; "mcqs"]%string.

(** ** [extract_text] (fk.py, lines 29-47)

    An uploaded file is its name and what the document libraries make of
    its bytes: the outcome of [getvalue().decode("utf-8")], of
    [pdfplumber.open] with the outcome of [extract_text()] on each page,
    and of [docx.Document] with the text of each paragraph. *)
Record uploaded_file := {
  name : str;
  getvalue_decode : result str;
  pdf_pages : result (list (result (option str)));
  docx_paragraphs : result (list (result str));
}.

(** [for page in pdf.pages: ...] over the local variable [text] *)
Fixpoint pdf_loop (pages : list (result (option str))) : M str unit :=
  match pages with
  | [] => ret tt
  | page :: pages' =>
      let! page_text := lift page in
      (match page_text with
       | Some ((_ :: _) as t) => modify (fun text => text ++ t ++ LF)
       | _ => ret tt
       end) ;;;
      pdf_loop pages'
  end.

(** [for para in doc.paragraphs: ...] over the local variable [text] *)
Fixpoint docx_loop (paragraphs : list (result str)) : M str unit :=
  match paragraphs with
  | [] => ret tt
  | para :: paragraphs' =>
      let! para_text := lift para in
      modify (fun text => text ++ para_text ++ LF) ;;;
      docx_loop paragraphs'
  end.

(** The body of the [try], over the local variable [text]. *)
Definition extract_body (file : uploaded_file) : M str unit :=
  if endswith (name file) (py ".txt") then
    let! decoded := lift (getvalue_decode file) in
    modify (fun _ => decoded)
  else if endswith (name file) (py ".pdf") then
    let! pages := lift (pdf_pages file) in
    pdf_loop pages
  else if endswith (name file) (py ".docx") then
    let! paragraphs := lift (docx_paragraphs file) in
    docx_loop paragraphs
  else ret tt.

Definition extract_text (file : uploaded_file) : M world str :=
  let '(outcome, text) := extract_body file [] in
  match outcome with
  | Return _ => ret text
  | Raised e => st_show (error_extract e) ;;; ret text
  | Unmodelled => fun w => (Unmodelled, w)
  end.

(** ** Reading a completion reply (fk.py, lines 109-116 and 203-210) *)

(** The fence stripping applied to the stripped reply: when it starts
    with the fence marker, the first line goes, and so does the last one
    if it starts with the marker too. [lines[0]] raises on an empty
    list. *)
Definition strip_fences (raw_output : str) : result str :=
  if startswith raw_output fence then
    let lines := splitlines raw_output in
    match lines with
    | [] => Raise IndexError
    | first :: _ =>
        let lines := if startswith first fence then drop 1 lines else lines in
        let lines :=
          match last lines with
          | Some l => if startswith l fence
                      then take (length lines - 1) lines else lines
          | None => lines
          end in
        Ok (strip (join LF lines))
    end
  else Ok raw_output.

(** [response.choices[0].message.content.strip()] and the fence
    stripping; [None] has no [strip]. *)
Definition read_reply (content : option str) : result str :=
  match content with
  | None => Raise AttributeError
  | Some text => strip_fences (strip text)
  end.

(** [len(x)] *)
Definition py_len (x : value) : result nat :=
  match x with
  | JString s => Ok (length s)
  | JArray items => Ok (length items)
  | JObject fields => Ok (length fields)
  | _ => Raise TypeError
  end.

(** The target number of objectives (fk.py, line 68). *)
Definition num_goals (text_length : nat) : nat :=
  Nat.min (Nat.max (text_length / 1000) 3) 8.

(** [clamp x lo hi] as the specification writes it. *)
Definition clamp (x lo hi : nat) : nat :=
  if x <? lo then lo else if hi <? x then hi else x.

Definition as_string (v : value) : option str :=
  match v with
  | JString s => Some s
  | _ => None
  end.

(** ["\n".join(indikatorer)]: the argument has to be an iterable of
    [str]. A list is joined item by item, a dict by its keys, a [str] by
    its characters. *)
Definition join_indikatorer (indikatorer : value) : result str :=
  match indikatorer with
  | JArray items =>
      match mapM as_string items with
      | Some parts => Ok (join LF parts)
      | None => Raise TypeError
      end
  | JObject fields => Ok (join LF (dict_keys fields))
  | JString s => Ok (join LF ((fun c => [c]) <$> s))
  | _ => Raise TypeError
  end.

Section Script.

(** Levels of recursion free when [json.loads] is called. *)
Variable recursion_limit : nat.

(** The completion endpoint: what the call does, given how many calls
    came before it and the prompt it receives. *)
Variable chat_completions_create : nat -> request -> completion.

(** [create_openai_client] reads the key from the session. *)
Definition create_openai_client : M world value := session_get "api_key".

(** The call to the endpoint: the request is sent, then the response
    arrives or the call raises. *)
Definition create (client : value) (prompt : request) : M world (option str) :=
  fun w =>
    match chat_completions_create (length (requests w)) prompt with
    | api_raises e => (Raised e, sent prompt w)
    | api_content content => (Return content, sent prompt w)
    end.

(** [generate_learning_objectives] (fk.py, lines 54-132) *)
Definition generate_learning_objectives (faktabas : value) : M world value :=
  let! client := create_openai_client in
  let! text_length := lift (py_len faktabas) in
  let prompt := learning_objectives_prompt (num_goals text_length) faktabas in
  try_except
    (let! content := create client prompt in
     let! raw_output := lift (read_reply content) in
     match raw_output with
     | [] => st_show error_empty_response ;;; ret (JArray [])
     | _ :: _ =>
         try_except
           (lift (json_loads recursion_limit raw_output))
           (fun json_err =>
              st_show (error_json json_err) ;;;
              st_show (write_raw_output raw_output) ;;;
              ret (JArray []))
     end)
    (fun e => st_show (error_objectives e) ;;; ret (JArray [])).

(** [generate_mcq] (fk.py, lines 134-216); the prompt is built before
    the [try]. *)
Definition generate_mcq (larandemal indikatorer faktabas : value) : M world value :=
  let! client := create_openai_client in
  let! joined := lift (join_indikatorer indikatorer) in
  let prompt := mcq_prompt larandemal joined faktabas in
  try_except
    (let! content := create client prompt in
     let! raw_output := lift (read_reply content) in
     lift (json_loads recursion_limit raw_output))
    (fun e => st_show (error_mcqs e) ;;; ret (JArray [])).

(** ** The steps of [main] *)

(** File upload (fk.py, lines 228-234); an uploaded file is always
    truthy, so [if uploaded_file] asks whether there is one. *)
Definition upload (uploaded_file : option uploaded_file) : M world unit :=
  match uploaded_file with
  | Some file =>
      let! faktabas := extract_text file in
      match faktabas with
      | _ :: _ =>
          session_set "faktabas" (JString faktabas) ;;;
          st_show (success_upload (name file))
      | [] => st_show error_no_text
      end
  | None => ret tt
  end.

(** [for obj in x]: the items of a list, the keys of a dict, the
    characters of a [str]. *)
Definition py_iter (x : value) : result (list value) :=
  match x with
  | JArray items => Ok items
  | JObject fields => Ok (JString <$> dict_keys fields)
  | JString s => Ok ((fun c => JString [c]) <$> s)
  | _ => Raise TypeError
  end.

(** [obj.get(key, default)]; only a dict has [get]. *)
Definition py_get (obj : value) (key : str) (default : value) : result value :=
  match obj with
  | JObject fields => Ok (dict_get fields key default)
  | _ => Raise AttributeError
  end.

(** [mcqs_all[larandemal] = mcqs]. A list or a dict is not hashable; the
    keys of [mcqs_all] are modelled for titles that are [str]. *)
Definition mcqs_all_set (mcqs_all : list (str * value)) (larandemal mcqs : value)
  : outcome (list (str * value)) :=
  match larandemal with
  | JString title => Return (dict_set mcqs_all title mcqs)
  | JArray _ | JObject _ => Raised TypeError
  | _ => Unmodelled
  end.

(** The body of the loop of lines 259-263, over the local [mcqs_all]. *)
Definition mcq_loop_body (mcqs_all : list (str * value)) (obj : value)
  : M world (list (str * value)) :=
  let! larandemal := lift (py_get obj (py "larandemal") (JString [])) in
  let! indikatorer := lift (py_get obj (py "indikatorer") (JArray [])) in
  let! faktabas := session_get "faktabas" in
  let! mcqs := generate_mcq larandemal indikatorer faktabas in
  fun w => (mcqs_all_set mcqs_all larandemal mcqs, w).

Fixpoint mcq_loop (mcqs_all : list (str * value)) (objs : list value)
  : M world (list (str * value)) :=
  match objs with
  | [] => ret mcqs_all
  | obj :: objs' =>
      let! mcqs_all' := mcq_loop_body mcqs_all obj in
      mcq_loop mcqs_all' objs'
  end.

(** "Generera larandemal och indikatorer" pressed (fk.py, lines 236-239). *)
Definition generate_objectives : M world unit :=
  fun w =>
    match session_state w !! "faktabas" with
    | Some faktabas =>
        (let! learning_objectives := generate_learning_objectives faktabas in
         session_set "larandemal_och_indikatorer" learning_objectives) w
    | None => (Return tt, w)
    end.

(** "Generera flervalsfragor" pressed (fk.py, lines 256-264). *)
Definition generate_all_mcqs : M world unit :=
  let! stored := session_get "larandemal_och_indikatorer" in
  let! objs := lift (py_iter stored) in
  let! mcqs_all := mcq_loop [] objs in
  session_set "mcqs" (JObject mcqs_all).

End Script.

(** ** Notions the statements below use *)

(** A reply wrapped in fences: an opening line, the text, a closing
    line. *)
Definition fenced (opening closing s : str) : str :=
  opening ++ LF ++ s ++ LF ++ closing.

(** A fence line: the marker first, and no white space in the line. *)
Definition fence_line (l : str) : bool :=
  startswith l fence && forallb (fun c => negb (py_isspace c)) l.

(** [s.split("\n")] *)
Fixpoint split_lf (s : str) : list str :=
  match s with
  | [] => [[]]
  | c :: r => if (c =? 10)%N then [] :: split_lf r else cons_line c (split_lf r)
  end.

(** The only line boundary in [s] is LF. *)
Definition lf_only (s : str) : bool :=
  forallb (fun c => negb (py_islinebreak c) || (c =? 10)%N) s.

(** The values returned before the first exception, and that
    exception. *)
Fixpoint until_raise {A : Type} (calls : list (result A)) : list A * option exn :=
  match calls with
  | [] => ([], None)
  | Ok a :: calls' => let '(before, e) := until_raise calls' in (a :: before, e)
  | Raise e :: _ => ([], Some e)
  end.

(** The outcome of a [try] body that stopped at [failure]. *)
Definition stopped (failure : option exn) : outcome unit :=
  match failure with
  | Some e => Raised e
  | None => Return tt
  end.

(** What a page adds to the text: its text and a newline, or nothing
    when it has no text. *)
Definition page_line (page_text : option str) : str :=
  match page_text with
  | Some ((_ :: _) as t) => t ++ LF
  | _ => []
  end.

(** The text accumulated up to the failure point, and the failure. *)
Definition accumulated (file : uploaded_file) : str * option exn :=
  if endswith (name file) (py ".txt") then
    match getvalue_decode file with
    | Ok decoded => (decoded, None)
    | Raise e => ([], Some e)
    end
  else if endswith (name file) (py ".pdf") then
    match pdf_pages file with
    | Ok pages =>
        let '(before, e) := until_raise pages in
        (concat (page_line <$> before), e)
    | Raise e => ([], Some e)
    end
  else if endswith (name file) (py ".docx") then
    match docx_paragraphs file with
    | Ok paragraphs =>
        let '(before, e) := until_raise paragraphs in
        (concat ((fun t => t ++ LF) <$> before), e)
    | Raise e => ([], Some e)
    end
  else ([], None).

(** An objective as the data model has it: a dict whose title, if
    present, is a [str] and whose indicators, if present, can be joined
    into the prompt. *)
Definition is_objective (obj : value) : bool :=
  match obj with
  | JObject fields =>
      match dict_get fields (py "larandemal") (JString []),
            join_indikatorer (dict_get fields (py "indikatorer") (JArray [])) with
      | JString _, Ok _ => true
      | _, _ => false
      end
  | _ => false
  end.

(** The title of an objective, the empty string when it has none. *)
Definition title_of (obj : value) : str :=
  match obj with
  | JObject fields =>
      match dict_get fields (py "larandemal") (JString []) with
      | JString title => title
      | _ => []
      end
  | _ => []
  end.

(** The prompt [generate_mcq] sends for an objective. *)
Definition prompt_of (obj faktabas : value) : request :=
  match obj with
  | JObject fields =>
      mcq_prompt (dict_get fields (py "larandemal") (JString []))
        (match join_indikatorer (dict_get fields (py "indikatorer") (JArray [])) with
         | Ok joined => joined
         | Raise _ => []
         end)
        faktabas
  | _ => mcq_prompt JNull [] faktabas
  end.

(** What one completion decodes to: the decoded reply, or the error to
    show. *)
Definition decoded (recursion_limit : nat) (c : completion) : result value :=
  match c with
  | api_raises e => Raise e
  | api_content content =>
      match read_reply content with
      | Ok raw_output => json_loads recursion_limit raw_output
      | Raise e => Raise e
      end
  end.

(** The MCQs one completion gives: the decoded reply, or the empty list. *)
Definition mcqs_of (recursion_limit : nat) (c : completion) : value :=
  match decoded recursion_limit c with
  | Ok mcqs => mcqs
  | Raise _ => JArray []
  end.

(** [d[k] = v] for each pair in turn. *)
Definition dict_update {V : Type} (d : list (str * V)) (pairs : list (str * V))
  : list (str * V) :=
  fold_left (fun d kv => dict_set d kv.1 kv.2) pairs d.

(** What the question loop stores for each objective, in order: its
    title and the MCQs of its own completion, the [n0 + j]-th call. *)
Definition loop_results (recursion_limit : nat)
    (chat_completions_create : nat -> request -> completion)
    (n0 : nat) (faktabas : value) (objs : list value) : list (str * value) :=
  imap (fun j obj =>
          (title_of obj,
           mcqs_of recursion_limit
             (chat_completions_create (n0 + j) (prompt_of obj faktabas))))
       objs.

(** An endpoint that answers its calls from a list, in order. *)
Definition scripted (replies : list completion) : nat -> request -> completion :=
  fun n _ => default (api_raises (ExternalError [])) (replies !! n).

(** ** Sample data for the instances at the end *)

(** A session with a key, a fact base and three objectives, two of them
    with the same title. *)
Definition objective (title : string) (indikatorer : list string) : value :=
  JObject [(py "larandemal", JString (py title));
           (py "indikatorer", JArray ((fun i => JString (py i)) <$> indikatorer))].

Definition sample_objectives : list value :=
  [objective "Lista A" ["a1"; "a2"]; objective "Redogor for B" [];
   objective "Lista A" ["a3"]]%string.

Definition sample_session : gmap string value :=
  <["larandemal_och_indikatorer"%string := JArray sample_objectives]>
    (<["faktabas"%string := JString (py "facts")]>
       (<["api_key"%string := JString (py "sk")]> ∅)).

Definition sample_world : world := World sample_session [] [].

(** A document of another type, and a PDF whose third page fails. *)
Definition sample_markdown : uploaded_file :=
  {| name := py "notes.md"; getvalue_decode := Ok (py "hello");
     pdf_pages := Raise (ExternalError (py "not a pdf"));
     docx_paragraphs := Raise (ExternalError (py "not a docx")) |}.

Definition sample_pdf : uploaded_file :=
  {| name := py "book.pdf"; getvalue_decode := Raise UnicodeDecodeError;
     pdf_pages := Ok [Ok (Some (py "one")); Ok None;
                      Raise (ExternalError (py "bad page")); Ok (Some (py "four"))];
     docx_paragraphs := Raise (ExternalError (py "not a docx")) |}.

(** A JSON string literal with U+2028 LINE SEPARATOR between two
    letters, and the string it denotes. *)
Definition line_separator_literal : str := [34; 97; 8232; 98; 34]%N.
Definition line_separator_text : str := [97; 8232; 98]%N.

(** JSON text written with apostrophes where JSON has double quotes. *)
Definition json_text (s : string) : str :=
  (fun c => if (c =? 39)%N then 34%N else c) <$> py s.

(** The reply [[{"fraga": "a<U+2028>b"}]]. *)
Definition question_reply : str :=
  py "[{" ++ [34%N] ++ py "fraga" ++ [34%N] ++ py ": " ++ line_separator_literal
    ++ py "}]".

(** The reply [{"a": 1}]: one JSON object, not an array. *)
Definition object_reply : str := py "{" ++ [34%N] ++ py "a" ++ [34%N] ++ py ": 1}".

(** Completions for the three sample objectives: the second reply is
    not JSON. *)
Definition sample_completions : list completion :=
  [api_content (Some (py "[1]")); api_content (Some (py "Sorry, no."));
   api_content (Some (py "[3]"))].

(** ** The whole page: [get_api_key], the display loops, [main] and the
    script around it (fk.py, lines 8-27 and 219-288) *)

(** What a run of the script puts on the page, by call site and in
    order. [message] is what the steps modelled above show. The value
    that an f-string or [st.write] renders is kept as it is. Spinners
    are not listed: they are gone when their block ends. *)
Inductive element :=
| page_title                          (* st.title *)
| button_reset                        (* st.button("Starta om") *)
| input_api_key                       (* st.text_input *)
| warning_api_key                     (* st.warning *)
| subheader_upload
| widget_file_uploader
| message (ev : event)
| button_objectives                   (* st.button("Generera larandemal ...") *)
| subheader_objectives
| label_reference
| reference (referens : value)
| objective_title (larandemal : str)  (* "**Larandemal:** " + larandemal *)
| label_indicators
| indicator (ind : value)
| rule                                (* st.write("---") *)
| button_questions                    (* st.button("Generera flervalsfragor") *)
| subheader_questions
| group_title (larandemal : str)      (* "### " and the key *)
| label_question_reference
| question_reference (referens : value)
| label_question
| question (fraga : value)
| label_answer
| answer (ratt_svar : value)
| label_distractors
| distractor (d : value)
| label_explanation
| explanation (forklaring : value).

(** The state of a run: the session, the page built so far and the
    requests sent to the endpoint so far. *)
Record app := App {
  session : gmap string value;
  screen : list element;
  sent_requests : list request;
}.

(** What the widgets return in one run of the script. [text_input]
    takes the value the script passes as [value=]. A button that is not
    reached is not asked. *)
Record widgets := {
  starta_om : bool;
  text_input : value -> str;
  file_uploader : option uploaded_file;
  pressed_objectives : bool;
  pressed_questions : bool;
}.

Definition render (el : element) : M app unit :=
  modify (fun a => App (session a) (screen a ++ [el]) (sent_requests a)).

(** A step modelled on [world] as a step of the run: what it shows goes
    on the page in its order. *)
Definition step {A : Type} (m : M world A) : M app A :=
  fun a =>
    let '(o, w) := m (World (session a) [] (sent_requests a)) in
    (o, App (session_state w) (screen a ++ (message <$> page w)) (requests w)).

(** [get_api_key] (fk.py, lines 20-27) *)
Definition get_api_key (ui : widgets) : M app str :=
  fun a =>
    let st := match session a !! "api_key"%string with
              | Some _ => session a
              | None => <["api_key"%string := JString []]> (session a)
              end in
    let api_key := text_input ui (default (JString []) (st !! "api_key"%string)) in
    (Return api_key,
     App (<["api_key"%string := JString api_key]> st)
         (screen a ++ [input_api_key]) (sent_requests a)).

(** Is the float that a literal denotes zero? The literal is that of a
    JSON number with a fraction or an exponent: digits [m] and a decimal
    exponent [k]. [float] rounds to the nearest double and a tie to the
    even one, so the result is zero exactly when [m * 10 ^ k] is at most
    [2 ^ -1075], half the smallest double above zero. *)
Definition float_is_zero (literal : str) : bool :=
  let unsigned :=
    match literal with
    | c :: r => if (c =? 45)%N then r else literal
    | [] => []
    end in
  match unsigned with
  | c :: _ =>
      if is_digit c then
        let '(int_digits, r1) := span_digits unsigned in
        let '(frac_digits, r2) :=
          match r1 with
          | dot :: r => if (dot =? 46)%N then span_digits r else ([], r1)
          | [] => ([], r1)
          end in
        let exponent :=
          match r2 with
          | _ :: sign :: ds =>
              if (sign =? 45)%N then (- digits_value ds)%Z
              else if (sign =? 43)%N then digits_value ds
              else digits_value (sign :: ds)
          | _ => 0%Z
          end in
        let m := digits_value (int_digits ++ frac_digits) in
        let k := (exponent - Z.of_nat (length frac_digits))%Z in
        ((m =? 0) || ((k <? 0) && (m * 2 ^ 1075 <=? 10 ^ (- k))))%Z
      else false
  | [] => false
  end.

(** [bool(x)] *)
Definition truthy (x : value) : bool :=
  match x with
  | JNull => false
  | JBool b => b
  | JInt z => negb (z =? 0)%Z
  | JFloat literal => negb (float_is_zero literal)
  | JString s => negb (bool_decide (s = []))
  | JArray items => negb (bool_decide (items = []))
  | JObject fields => negb (bool_decide (fields = []))
  end.

(** [x.items()]; only a dict has it. *)
Definition py_items (x : value) : result (list (str * value)) :=
  match x with
  | JObject fields => Ok fields
  | _ => Raise AttributeError
  end.

(** ["..." + x]: [x] has to be a [str]. *)
Definition py_concat (x : value) : result str :=
  match x with
  | JString s => Ok s
  | _ => Raise TypeError
  end.

(** [for x in xs: st.write(f"- {x}")] *)
Fixpoint render_items (el : value -> element) (xs : list value) : M app unit :=
  match xs with
  | [] => ret tt
  | x :: xs' => render (el x) ;;; render_items el xs'
  end.

(** The body of the display loop of the objectives (fk.py, lines
    245-254). *)
Definition display_objective (obj : value) : M app unit :=
  render label_reference ;;;
  let! referens := lift (py_get obj (py "referens") (JString [])) in
  render (reference referens) ;;;
  let! larandemal := lift (py_get obj (py "larandemal") (JString [])) in
  let! title := lift (py_concat larandemal) in
  render (objective_title title) ;;;
  render label_indicators ;;;
  let! indikatorer := lift (py_get obj (py "indikatorer") (JArray [])) in
  let! inds := lift (py_iter indikatorer) in
  render_items indicator inds ;;;
  render rule.

Fixpoint display_objectives (objs : list value) : M app unit :=
  match objs with
  | [] => ret tt
  | obj :: objs' => display_objective obj ;;; display_objectives objs'
  end.

(** The body of the display loop of one question (fk.py, lines
    271-285). *)
Definition display_mcq (mcq : value) : M app unit :=
  render label_question_reference ;;;
  let! referens := lift (py_get mcq (py "referens") (JString [])) in
  render (question_reference referens) ;;;
  render label_question ;;;
  let! fraga := lift (py_get mcq (py "fraga") (JString [])) in
  render (question fraga) ;;;
  render label_answer ;;;
  let! ratt_svar := lift (py_get mcq (py "ratt_svar") (JString [])) in
  render (answer ratt_svar) ;;;
  render label_distractors ;;;
  let! distraktorer := lift (py_get mcq (py "distraktorer") (JArray [])) in
  let! ds := lift (py_iter distraktorer) in
  render_items distractor ds ;;;
  render label_explanation ;;;
  let! forklaring := lift (py_get mcq (py "forklaring") (JString [])) in
  render (explanation forklaring) ;;;
  render rule.

Fixpoint display_mcq_list (mcqs : list value) : M app unit :=
  match mcqs with
  | [] => ret tt
  | mcq :: mcqs' => display_mcq mcq ;;; display_mcq_list mcqs'
  end.

(** The loop over [st.session_state["mcqs"].items()] (fk.py, lines
    268-285). *)
Fixpoint display_groups (groups : list (str * value)) : M app unit :=
  match groups with
  | [] => ret tt
  | (larandemal, mcq_list) :: groups' =>
      render (group_title larandemal) ;;;
      let! mcqs := lift (py_iter mcq_list) in
      display_mcq_list mcqs ;;;
      display_groups groups'
  end.

Section Page.

Variable recursion_limit : nat.
Variable chat_completions_create : nat -> request -> completion.

(** The objectives button and what it starts (fk.py, lines 236-239);
    the button is only there when a fact base is. *)
Definition objectives_button (ui : widgets) : M app unit :=
  fun a =>
    match session a !! "faktabas"%string with
    | Some _ =>
        (render button_objectives ;;;
         if pressed_objectives ui
         then step (generate_objectives recursion_limit chat_completions_create)
         else ret tt) a
    | None => (Return tt, a)
    end.

(** The objectives on display, and under them the questions button and
    what it starts (fk.py, lines 242-264). *)
Definition objectives_section (ui : widgets) : M app unit :=
  fun a =>
    match session a !! "larandemal_och_indikatorer"%string with
    | Some stored =>
        if truthy stored then
          (render subheader_objectives ;;;
           let! objs := lift (py_iter stored) in
           display_objectives objs ;;;
           render button_questions ;;;
           if pressed_questions ui
           then step (generate_all_mcqs recursion_limit chat_completions_create)
           else ret tt) a
        else (Return tt, a)
    | None => (Return tt, a)
    end.

(** The questions on display (fk.py, lines 266-285). *)
Definition questions_section : M app unit :=
  fun a =>
    match session a !! "mcqs"%string with
    | Some stored =>
        (render subheader_questions ;;;
         let! groups := lift (py_items stored) in
         display_groups groups) a
    | None => (Return tt, a)
    end.

(** [main] (fk.py, lines 219-285) *)
Definition main (ui : widgets) : M app unit :=
  let! api_key := get_api_key ui in
  match api_key with
  | [] => render warning_api_key
  | _ :: _ =>
      render subheader_upload ;;;
      render widget_file_uploader ;;;
      step (upload (file_uploader ui)) ;;;
      objectives_button ui ;;;
      objectives_section ui ;;;
      questions_section
  end.

(** How a run of the script ends when nothing is raised: at its last
    line, or at [st.experimental_rerun()], which starts the script
    again. *)
Inductive run_end := finished | rerun.

(** The script from its first line (fk.py, lines 8-17 and 287-288);
    [has_experimental_rerun] is [hasattr(st, "experimental_rerun")]. *)
Definition script (has_experimental_rerun : bool) (ui : widgets) : M app run_end :=
  render page_title ;;;
  render button_reset ;;;
  if starta_om ui then
    modify (fun a => App (reset (session a)) (screen a) (sent_requests a)) ;;;
    if has_experimental_rerun then ret rerun
    else main ui ;;; ret finished
  else main ui ;;; ret finished.

End Page.

(** ** Notions of the further properties *)

(** A page that adds nothing to the text: [extract_text()] gave [None]
    or the empty string. *)
Definition page_without_text (page : result (option str)) : bool :=
  match page with
  | Ok None | Ok (Some []) => true
  | _ => false
  end.

(** A computation whose outcome is never the unmodelled one. *)
Definition modelled {S A : Type} (m : M S A) : Prop :=
  forall s, (m s).1 <> Unmodelled.

(** A dict whose title, if it has one, is a [str]. *)
Definition has_str_title (obj : value) : bool :=
  match obj with
  | JObject fields =>
      match dict_get fields (py "larandemal") (JString []) with
      | JString _ => true
      | _ => false
      end
  | _ => false
  end.

(** The distinct items of a list, each at its first place. *)
Definition first_occurrences (l : list str) : list str :=
  foldl (fun seen x => if decide (x ∈ seen) then seen else seen ++ [x]) [] l.

(** The titles of the objectives on a page, in its order. *)
Definition shown_titles (els : list element) : list str :=
  omap (fun el => match el with objective_title title => Some title | _ => None end)
       els.

(** Samples for the further properties: a DOCX whose one paragraph is
    empty, a scanned PDF, a text file, and a run of the script by what
    its widgets return. *)
Definition sample_docx : uploaded_file :=
  {| name := py "empty.docx"; getvalue_decode := Raise UnicodeDecodeError;
     pdf_pages := Raise (ExternalError (py "not a pdf"));
     docx_paragraphs := Ok [Ok []] |}.

Definition sample_scan : uploaded_file :=
  {| name := py "scan.pdf"; getvalue_decode := Raise UnicodeDecodeError;
     pdf_pages := Ok [Ok None; Ok (Some [])];
     docx_paragraphs := Raise (ExternalError (py "not a docx")) |}.

Definition sample_text_file : uploaded_file :=
  {| name := py "new.txt"; getvalue_decode := Ok (py "new facts");
     pdf_pages := Raise (ExternalError (py "not a pdf"));
     docx_paragraphs := Raise (ExternalError (py "not a docx")) |}.

Definition sample_widgets (typed : string) (file : option uploaded_file)
    (reset_pressed objectives_pressed questions_pressed : bool) : widgets :=
  {| starta_om := reset_pressed; text_input := fun _ => py typed;
     file_uploader := file; pressed_objectives := objectives_pressed;
     pressed_questions := questions_pressed |}.

Definition sample_app : app := App sample_session [] [].

(** The sample session with questions stored from an earlier run. *)
Definition sample_groups : list (str * value) := [(py "Lista A", JArray [])].

Definition sample_app_with_questions : app :=
  App (<["mcqs"%string := JObject sample_groups]> sample_session) [] [].

(** The sample session after a reply for the objectives that decoded to
    a list of numbers. *)
Definition sample_app_with_numbers : app :=
  App (<["larandemal_och_indikatorer"%string := JArray [JInt 3]]> sample_session)
      [] [].

(** * Properties *)

(** ** The decoder never runs out of fuel *)

Lemma skip_ws_length (s : str) : length (skip_ws s) <= length s.
Proof.
  induction s as [|c r IH]; simpl; [lia|].
  destruct (is_json_ws c); simpl; lia.
Qed.

Lemma span_digits_length (s : str) : length (span_digits s).2 <= length s.
Proof.
  induction s as [|c r IH]; simpl; [lia|].
  destruct (is_digit c); simpl; [|lia].
  destruct (span_digits r) as [ds r']; simpl in *; lia.
Qed.

Lemma scan_frac_length (s : str) : length (scan_frac s).2 <= length s.
Proof.
  destruct s as [|dot [|d r]]; simpl; try lia.
  destruct ((dot =? 46)%N && is_digit d); simpl; [|lia].
  pose proof (span_digits_length r).
  destruct (span_digits r) as [ds r']; simpl in *; lia.
Qed.

Lemma scan_exp_length (s : str) : length (scan_exp s).2 <= length s.
Proof.
  destruct s as [|e r]; simpl; [lia|].
  destruct ((e =? 101) || (e =? 69))%N; simpl; [|lia].
  destruct r as [|c r']; simpl.
  - lia.
  - destruct ((c =? 45) || (c =? 43))%N.
    + pose proof (span_digits_length r').
      destruct (span_digits r') as [[|c' ds] r2]; simpl in *; lia.
    + pose proof (span_digits_length (c :: r')).
      destruct (span_digits (c :: r')) as [[|c' ds] r2]; simpl in *; lia.
Qed.

Lemma match_number_length (s : str) (v : value) (rest : str) :
  match_number s = Ok (v, rest) -> length rest < length s.
Proof.
  unfold match_number.
  assert (forall (sign s1 : str), length s1 <= length s ->
    match s1 with
    | c :: r =>
        if is_digit c then
          let '(ds, r1) := if (c =? 48)%N then ([], r) else span_digits r in
          let '(frac, r2) := scan_frac r1 in
          let '(ex, r3) := scan_exp r2 in
          match frac ++ ex with
          | [] =>
              if int_max_str_digits <? length (c :: ds) then Raise ValueError
              else
                let n := digits_value (c :: ds) in
                Ok (JInt (match sign with [] => n | _ => (- n)%Z end), r3)
          | _ => Ok (JFloat (sign ++ c :: ds ++ frac ++ ex), r3)
          end
        else Raise JSONDecodeError
    | [] => Raise JSONDecodeError
    end = Ok (v, rest) -> length rest < length s) as Hbody.
  { intros sign [|c r] Hlen; [done|].
    destruct (is_digit c) eqn:Hd; [|done].
    destruct (if (c =? 48)%N then ([], r) else span_digits r)
      as [ds r1] eqn:E1.
    assert (length r1 <= length r) as H1.
    { pose proof (span_digits_length r) as H.
      destruct (c =? 48)%N; [by inversion E1|]. by rewrite E1 in H. }
    pose proof (scan_frac_length r1) as H2.
    destruct (scan_frac r1) as [frac r2].
    pose proof (scan_exp_length r2) as H3.
    destruct (scan_exp r2) as [ex r3]. simpl in Hlen, H2, H3.
    destruct (frac ++ ex).
    - destruct (int_max_str_digits <? length (c :: ds)); [done|].
      intros [= _ <-]. lia.
    - intros [= _ <-]. lia. }
  destruct s as [|c r]; [done|].
  destruct (c =? 45)%N.
  - intros H. apply (Hbody [c] r) in H; simpl in *; lia.
  - intros H. apply (Hbody [] (c :: r)) in H; simpl in *; lia.
Qed.

Lemma push_char_Some (c : char) (x : option (str * str)) (t r : str) :
  push_char c x = Some (t, r) -> exists t', x = Some (t', r).
Proof.
  destruct x as [[t' r']|]; simpl; [|done].
  intros [= _ <-]. by exists t'.
Qed.

(** One case split on the scrutinee at the head of [H], without
    unfolding the recursive calls under it. *)
Ltac scan_step H :=
  cbv beta match in H;
  lazymatch type of H with
  | (if ?b then _ else _) = _ => destruct b eqn:?
  | match ?x with _ => _ end = _ =>
      first [is_var x; destruct x | destruct x eqn:?]
  | push_char _ _ = Some _ => apply push_char_Some in H as [? H]
  end.

Lemma scanstring_length_aux (n : nat) :
  forall (s t r : str),
    length s <= n -> scanstring s = Some (t, r) -> length r < length s.
Proof.
  induction n as [|n IH]; intros s t r Hn Hs.
  - destruct s; [done | simpl in Hn; lia].
  - destruct s as [|c s1]; [done|]. simpl in Hs, Hn.
    repeat scan_step Hs; try done;
      try (injection Hs as _ <-; simpl; lia);
      try (apply IH in Hs; simpl in *; lia).
Qed.

Lemma scanstring_length (s t r : str) :
  scanstring s = Some (t, r) -> length r < length s.
Proof. by apply (scanstring_length_aux (length s)). Qed.

Section ScannerFuel.

#[local] Arguments match_number : simpl never.
#[local] Arguments scanstring : simpl never.
#[local] Arguments skip_ws : simpl never.
#[local] Arguments startswith : simpl never.
#[local] Arguments drop : simpl never.

Lemma skip_ws_cons_length (s r : str) (c : char) :
  skip_ws s = c :: r -> length r < length s.
Proof. intros H. pose proof (skip_ws_length s) as Hl. rewrite H in Hl. simpl in Hl. lia. Qed.

(** Bounds the length of every [skip_ws x] in sight. *)
Ltac ws_bounds :=
  repeat match goal with
    | |- context [skip_ws ?x] =>
        pose proof (skip_ws_length x); generalize dependent (skip_ws x); intros
    | H : context [skip_ws ?x] |- _ =>
        pose proof (skip_ws_length x); generalize dependent (skip_ws x); intros
    end.

(** Turns what was read so far into bounds on lengths. *)
Ltac scan_bounds :=
  repeat match goal with
    | E : scanstring _ = Some _ |- _ => apply scanstring_length in E
    | E : skip_ws _ = _ :: _ |- _ => apply skip_ws_cons_length in E
    | E : match_number _ = Ok _ |- _ => apply match_number_length in E
    end.

(** A term that is read is not empty: the rest is shorter. *)
Lemma scan_progress (fuel : nat) :
  (forall depth s v rest,
     scan_once fuel depth s = Some (Ok (v, rest)) -> length rest < length s)
  /\ (forall depth acc s v rest,
     parse_array fuel depth acc s = Some (Ok (v, rest)) -> length rest < length s)
  /\ (forall depth acc s v rest,
     parse_object fuel depth acc s = Some (Ok (v, rest)) -> length rest < length s).
Proof.
  induction fuel as [|fuel (IHs & IHa & IHo)]; [done|].
  split_and!; intros; simpl in H;
    repeat scan_step H; try done; simplify_eq;
    repeat match goal with
      | E : scan_once _ _ _ = Some (Ok _) |- _ => apply IHs in E
      | E : parse_array _ _ _ _ = Some (Ok _) |- _ => apply IHa in E
      | E : parse_object _ _ _ _ = Some (Ok _) |- _ => apply IHo in E
      end;
    scan_bounds; ws_bounds; rewrite ?length_drop; simpl in *; lia.
Qed.

(** Twice the length of the input, and one more, is fuel enough. *)
Lemma scan_fuel (fuel : nat) :
  (forall depth s, 2 * length s < fuel -> scan_once fuel depth s <> None)
  /\ (forall depth acc s,
       2 * length s + 1 < fuel -> parse_array fuel depth acc s <> None)
  /\ (forall depth acc s,
       2 * length s + 1 < fuel -> parse_object fuel depth acc s <> None).
Proof.
  induction fuel as [|fuel (IHs & IHa & IHo)]; [split_and!; intros; lia|].
  destruct (scan_progress fuel) as (Ps & _ & _).
  split_and!; intros until 1; intros Hnone; simpl in Hnone;
    repeat scan_step Hnone; try done;
    repeat match goal with
      | E : scan_once _ _ _ = Some (Ok _) |- _ => apply Ps in E
      end;
    first
      [ apply IHa in Hnone; [done|]
      | apply IHo in Hnone; [done|]
      | match goal with
        | E : scan_once _ _ _ = None |- _ => apply IHs in E; [done|]
        end ];
    scan_bounds; ws_bounds; simpl in *; lia.
Qed.

Lemma scan_once_fuel (recursion_limit : nat) (s : str) :
  scan_once (S (2 * length s)) recursion_limit (skip_ws s) <> None.
Proof.
  apply scan_fuel. pose proof (skip_ws_length s). lia.
Qed.

End ScannerFuel.

(** ** The decoder and the string methods on samples *)

Example json_loads_document :
  json_loads 1000 (json_text " {'a': [1, -20, 2.5e3, null, true], 'b': 'x', 'a': {}} ")
  = Ok (JObject [(py "a", JObject []); (py "b", JString (py "x"))]).
Proof. vm_compute. reflexivity. Qed.

Example json_loads_escapes :
  json_loads 1000 (json_text "'\u0041\n\ud83d\ude00\ud83d!'")
  = Ok (JString [65; 10; 128512; 55357; 33]%N).
Proof. vm_compute. reflexivity. Qed.

Example json_loads_rejects :
  json_loads 1000 (json_text "[1,]") = Raise JSONDecodeError
  /\ json_loads 1000 (json_text "01") = Raise JSONDecodeError
  /\ json_loads 1000 (json_text "{'a' 1}") = Raise JSONDecodeError
  /\ json_loads 1000 (json_text "[1] x") = Raise JSONDecodeError
  /\ json_loads 1000 (json_text "'a" ++ LF ++ json_text "b'") = Raise JSONDecodeError
  /\ json_loads 1000 (json_text "") = Raise JSONDecodeError
  /\ json_loads 2 (json_text "[[[]]]") = Raise RecursionError
  /\ json_loads 1000 (replicate 4301 49%N) = Raise ValueError.
Proof. repeat split; vm_compute; reflexivity. Qed.

Example splitlines_samples :
  splitlines (py "ab" ++ [13; 10]%N ++ py "c" ++ [10; 10]%N ++ py "d" ++ [8232]%N)
  = [py "ab"; py "c"; []; py "d"]
  /\ strip ([32; 9; 160]%N ++ py "a b" ++ [10; 12288]%N) = py "a b"
  /\ join LF [py "a"; []; py "b"] = py "a" ++ [10; 10]%N ++ py "b".
Proof. repeat split; vm_compute; reflexivity. Qed.

(** ** The number of objectives asked for *)

(** C1. For every fact base, the number of objectives that
    [generate_learning_objectives] computes from its length is
    clamp(floor(len / 1000), 3, 8), so it lies between 3 and 8; a length
    of 3500 gives 3 and a length of 9000 gives 8. *)
Theorem num_goals_clamp (faktabas : str) :
  num_goals (length faktabas) = clamp (length faktabas / 1000) 3 8
  /\ 3 <= num_goals (length faktabas) <= 8
  /\ num_goals 3500 = 3
  /\ num_goals 9000 = 8.
Proof.
  assert (forall n, num_goals n = clamp (n / 1000) 3 8) as Hclamp.
  { intros n. unfold num_goals, clamp.
    destruct (Nat.ltb_spec (n / 1000) 3), (Nat.ltb_spec 8 (n / 1000)); lia. }
  split; [apply Hclamp|].
  split; [unfold num_goals; lia|].
  split; vm_compute; reflexivity.
Qed.

(** ** Reset *)

(** C3. Reset removes the three keys of the fact base, the objectives
    and the MCQs and no other: every other entry of the session, the API
    key among them, is as it was. *)
Theorem reset_removes_three (st : gmap string value) (key : string) :
  reset st !! key =
    (if bool_decide (key ∈ ["faktabas"; "larandemal_och_indikatorer"; "mcqs"]%string)
     then None else st !! key)
  /\ reset st !! "api_key"%string = st !! "api_key"%string.
Proof.
  unfold reset. simpl. split.
  - case_bool_decide as Hkey.
    + rewrite !elem_of_cons in Hkey.
      destruct Hkey as [->|[->|[->|Hnil]]]; [..|by apply elem_of_nil in Hnil];
        by simplify_map_eq.
    + rewrite !lookup_delete_ne; [done|..]; intros <-; apply Hkey; set_solver.
  - by rewrite !lookup_delete_ne.
Qed.

(** ** Text extraction *)

Lemma pdf_loop_run (pages : list (result (option str))) (text : str) :
  pdf_loop pages text =
    (stopped (until_raise pages).2,
     text ++ concat (page_line <$> (until_raise pages).1)).
Proof.
  revert text. induction pages as [|[page_text|e] pages IH]; intros text.
  - simpl. by rewrite app_nil_r.
  - cbn [pdf_loop]. unfold bind at 1. cbn [lift].
    unfold bind at 1.
    assert ((match page_text with
             | Some ((_ :: _) as t) => modify (fun text => text ++ t ++ LF)
             | _ => ret tt
             end) text = (Return tt, text ++ page_line page_text)) as ->.
    { destruct page_text as [[|c t]|]; simpl; unfold ret; by rewrite ?app_nil_r. }
    rewrite IH. simpl. destruct (until_raise pages) as [before failure]. simpl.
    by rewrite app_assoc.
  - cbn [pdf_loop docx_loop]. unfold bind, lift. simpl. by rewrite app_nil_r.
Qed.

Lemma docx_loop_run (paragraphs : list (result str)) (text : str) :
  docx_loop paragraphs text =
    (stopped (until_raise paragraphs).2,
     text ++ concat ((fun t => t ++ LF) <$> (until_raise paragraphs).1)).
Proof.
  revert text. induction paragraphs as [|[para_text|e] paragraphs IH]; intros text.
  - simpl. by rewrite app_nil_r.
  - cbn [docx_loop]. unfold bind at 1. cbn [lift].
    unfold bind at 1. cbn [modify]. rewrite IH. simpl.
    destruct (until_raise paragraphs) as [before failure]. simpl.
    by rewrite <- !app_assoc.
  - cbn [pdf_loop docx_loop]. unfold bind, lift. simpl. by rewrite app_nil_r.
Qed.

(** The [try] body stops at the failure with the text accumulated so
    far. *)
Lemma extract_body_run (file : uploaded_file) :
  extract_body file [] = (stopped (accumulated file).2, (accumulated file).1).
Proof.
  unfold extract_body, accumulated.
  destruct (endswith (name file) (py ".txt")).
  { unfold bind, lift. by destruct (getvalue_decode file). }
  destruct (endswith (name file) (py ".pdf")).
  { unfold bind at 1. unfold lift. destruct (pdf_pages file) as [pages|e]; [|done].
    rewrite pdf_loop_run. by destruct (until_raise pages). }
  destruct (endswith (name file) (py ".docx")).
  { unfold bind at 1. unfold lift.
    destruct (docx_paragraphs file) as [paragraphs|e]; [|done].
    rewrite docx_loop_run. by destruct (until_raise paragraphs). }
  done.
Qed.

Lemma extract_text_run (file : uploaded_file) (w : world) :
  extract_text file w =
    (Return (accumulated file).1,
     match (accumulated file).2 with
     | Some e => shown (error_extract e) w
     | None => w
     end).
Proof.
  unfold extract_text. rewrite extract_body_run.
  by destruct (accumulated file).2.
Qed.

(** C6. Whatever the file and its extension, [extract_text] returns: an
    exception raised while extracting is caught and shown on the page,
    and the text returned is what had been accumulated up to that point,
    possibly empty. The session and the requests are left alone. The
    exceptions are those of [exn], instances of [Exception], which is
    the class the handler names. *)
Theorem extract_text_never_raises (file : uploaded_file) (w : world) :
  exists (text : str) (w' : world),
    extract_text file w = (Return text, w')
    /\ text = (accumulated file).1
    /\ page w' = page w ++ from_option (fun e => [error_extract e]) []
                                       (accumulated file).2
    /\ session_state w' = session_state w
    /\ requests w' = requests w.
Proof.
  eexists _, _. split; [apply extract_text_run|].
  destruct (accumulated file).2; simpl; by rewrite ?app_nil_r.
Qed.

(** C8. A file whose name ends in none of [.txt], [.pdf] and [.docx]
    gives the empty string, and the extractor shows no error. *)
Theorem extract_text_other_extension (file : uploaded_file) (w : world) :
  endswith (name file) (py ".txt") = false ->
  endswith (name file) (py ".pdf") = false ->
  endswith (name file) (py ".docx") = false ->
  extract_text file w = (Return [], w).
Proof.
  intros Htxt Hpdf Hdocx. rewrite extract_text_run.
  unfold accumulated. by rewrite Htxt, Hpdf, Hdocx.
Qed.

(** C7. On upload, a non-empty extracted text replaces the stored fact
    base and success is shown; an empty one shows an error and leaves
    what the session had under the fact base key. *)
Theorem upload_replaces_or_keeps
    (file : uploaded_file) (w w1 : world) (faktabas : str) :
  extract_text file w = (Return faktabas, w1) ->
  match faktabas with
  | _ :: _ =>
      upload (Some file) w =
        (Return tt,
         shown (success_upload (name file))
               (stored "faktabas" (JString faktabas) w1))
      /\ session_state (upload (Some file) w).2 !! "faktabas"%string
         = Some (JString faktabas)
  | [] =>
      upload (Some file) w = (Return tt, shown error_no_text w1)
      /\ session_state (upload (Some file) w).2 = session_state w
  end.
Proof.
  intros Hext. unfold upload, bind. rewrite Hext.
  rewrite extract_text_run in Hext. injection Hext as _ <-.
  destruct faktabas as [|c t].
  - split; [done|]. simpl. by destruct (accumulated file).2.
  - split; [done|]. simpl. by rewrite lookup_insert_eq.
Qed.

(** ** Dicts *)

Section Dict.
Context {V : Type}.
Implicit Types (d : list (str * V)) (k : str) (v : V).

Lemma dict_lookup_set d k v k' :
  dict_lookup (dict_set d k v) k' =
    if decide (k = k') then Some v else dict_lookup d k'.
Proof.
  induction d as [|[k0 v0] d IH]; simpl; unfold str_eqb.
  - repeat (case_bool_decide || case_decide); congruence.
  - case_bool_decide as E0; simpl; unfold str_eqb.
    + subst k0. repeat (case_bool_decide || case_decide); congruence.
    + rewrite IH. repeat (case_bool_decide || case_decide); congruence.
Qed.

Lemma dict_keys_set d k v :
  dict_keys (dict_set d k v) =
    if decide (k ∈ dict_keys d) then dict_keys d else dict_keys d ++ [k].
Proof.
  induction d as [|[k0 v0] d IH]; [done|].
  change (dict_keys ((k0, v0) :: d)) with (k0 :: dict_keys d).
  cbn [dict_set]. unfold str_eqb. case_bool_decide as E0.
  - subst k0. change (dict_keys ((k, v) :: d)) with (k :: dict_keys d).
    rewrite decide_True; [done|]. apply elem_of_cons; by left.
  - change (dict_keys ((k0, v0) :: dict_set d k v))
      with (k0 :: dict_keys (dict_set d k v)).
    rewrite IH. case_decide as E.
    + rewrite decide_True; [done|]. apply elem_of_cons; by right.
    + rewrite decide_False; [done|].
      intros [?|?]%elem_of_cons; congruence.
Qed.

Lemma dict_keys_set_NoDup d k v :
  NoDup (dict_keys d) -> NoDup (dict_keys (dict_set d k v)).
Proof.
  intros Hd. rewrite dict_keys_set. case_decide as E; [done|].
  apply NoDup_app. split_and!; [done| |apply NoDup_singleton].
  intros x Hx ->%list_elem_of_singleton. done.
Qed.

Lemma dict_keys_set_elem d k v k' :
  k' ∈ dict_keys (dict_set d k v) <-> k' = k \/ k' ∈ dict_keys d.
Proof.
  rewrite dict_keys_set. case_decide as E.
  - split; [by right|]. by intros [->|?].
  - rewrite elem_of_app, list_elem_of_singleton. tauto.
Qed.

Lemma dict_update_keys_NoDup d (pairs : list (str * V)) :
  NoDup (dict_keys d) -> NoDup (dict_keys (dict_update d pairs)).
Proof.
  revert d. induction pairs as [|[k v] pairs IH]; intros d Hd; [done|].
  apply IH. by apply dict_keys_set_NoDup.
Qed.

Lemma dict_update_keys_elem d (pairs : list (str * V)) k :
  k ∈ dict_keys (dict_update d pairs) <-> k ∈ dict_keys d \/ k ∈ pairs.*1.
Proof.
  revert d. induction pairs as [|[k0 v0] pairs IH]; intros d; simpl.
  - rewrite elem_of_nil. tauto.
  - unfold dict_update in *. simpl. rewrite IH, dict_keys_set_elem, elem_of_cons.
    tauto.
Qed.

(** A key that no pair sets keeps its value. *)
Lemma dict_update_lookup_other d (pairs : list (str * V)) k :
  k ∉ pairs.*1 ->
  dict_lookup (dict_update d pairs) k = dict_lookup d k.
Proof.
  revert d. induction pairs as [|[k0 v0] pairs IH]; intros d Hk; [done|].
  simpl in Hk. apply not_elem_of_cons in Hk as [Hne Hk].
  unfold dict_update in *. simpl. rewrite IH by done.
  rewrite dict_lookup_set. by rewrite decide_False.
Qed.

(** The last pair that sets a key decides its value. *)
Lemma dict_update_lookup_last d (pairs : list (str * V)) (j : nat) k v :
  pairs !! j = Some (k, v) ->
  (forall j' kv, j < j' -> pairs !! j' = Some kv -> kv.1 <> k) ->
  dict_lookup (dict_update d pairs) k = Some v.
Proof.
  revert d j. induction pairs as [|[k0 v0] pairs IH]; intros d j Hj Hlast; [done|].
  destruct j as [|j]; simpl in Hj.
  - injection Hj as -> ->. unfold dict_update. simpl.
    fold (dict_update (dict_set d k v) pairs).
    rewrite dict_update_lookup_other.
    + rewrite dict_lookup_set. by rewrite decide_True.
    + intros Hin. apply list_elem_of_fmap in Hin as ([k' v'] & -> & Hin).
      apply list_elem_of_lookup in Hin as [j' Hj'].
      by apply (Hlast (S j') (k', v')); [lia|..].
  - unfold dict_update. simpl. apply (IH _ j); [done|].
    intros j' kv Hlt Hj'. apply (Hlast (S j') kv); [lia|done].
Qed.

End Dict.

(** ** The generators *)

Section Generators.
Variable limit : nat.
Variable endpoint : nat -> request -> completion.

(** The empty text is not JSON. *)
Lemma json_loads_empty : json_loads limit [] = Raise JSONDecodeError.
Proof. reflexivity. Qed.

(** One call of [generate_mcq] returns the MCQs of its completion; it
    sends its prompt and shows an error exactly when the completion does
    not decode. *)
Lemma generate_mcq_run (larandemal indikatorer faktabas key : value)
    (joined : str) (w : world) :
  session_state w !! "api_key"%string = Some key ->
  join_indikatorer indikatorer = Ok joined ->
  let prompt := mcq_prompt larandemal joined faktabas in
  let c := endpoint (length (requests w)) prompt in
  generate_mcq limit endpoint larandemal indikatorer faktabas w =
    (Return (mcqs_of limit c),
     match decoded limit c with
     | Ok _ => sent prompt w
     | Raise e => shown (error_mcqs e) (sent prompt w)
     end).
Proof.
  intros Hkey Hjoin prompt c.
  unfold generate_mcq, create_openai_client, session_get, bind.
  rewrite Hkey, Hjoin. cbn [lift]. fold prompt.
  unfold try_except, create, bind, mcqs_of, decoded. fold c.
  destruct c as [e|content]; [done|].
  destruct (read_reply content) as [raw_output|e]; [|done].
  cbn [lift]. by destruct (json_loads limit raw_output).
Qed.

(** One turn of the question loop, on an objective. *)
Lemma mcq_loop_body_run (mcqs_all : list (str * value)) (obj faktabas key : value)
    (w : world) :
  session_state w !! "api_key"%string = Some key ->
  session_state w !! "faktabas"%string = Some faktabas ->
  is_objective obj = true ->
  exists w',
    mcq_loop_body limit endpoint mcqs_all obj w =
      (Return (dict_set mcqs_all (title_of obj)
                 (mcqs_of limit
                    (endpoint (length (requests w)) (prompt_of obj faktabas)))),
       w')
    /\ session_state w' = session_state w
    /\ requests w' = requests w ++ [prompt_of obj faktabas].
Proof.
  intros Hkey Hfb Hobj.
  destruct obj as [| | | | |items|fields]; try done.
  unfold is_objective in Hobj. unfold mcq_loop_body, title_of, prompt_of.
  cbn [py_get lift bind].
  destruct (dict_get fields (py "larandemal") (JString [])) as [| | | |title| |];
    try done.
  destruct (join_indikatorer (dict_get fields (py "indikatorer") (JArray [])))
    as [joined|] eqn:Hjoin; [|done].
  unfold bind at 1. unfold session_get at 1. rewrite Hfb.
  unfold bind at 1.
  rewrite (generate_mcq_run _ _ _ key joined w Hkey Hjoin).
  cbn [mcqs_all_set]. eexists. split; [reflexivity|].
  by destruct (decoded limit _).
Qed.

(** The question loop on objectives: it returns, having stored for each
    objective in turn the MCQs of that objective's own completion, and
    having sent one prompt per objective. *)
Lemma mcq_loop_run (faktabas key : value) (objs : list value) :
  forall (mcqs_all : list (str * value)) (w : world),
    session_state w !! "api_key"%string = Some key ->
    session_state w !! "faktabas"%string = Some faktabas ->
    forallb is_objective objs = true ->
    exists w',
      mcq_loop limit endpoint mcqs_all objs w =
        (Return (dict_update mcqs_all
                   (loop_results limit endpoint (length (requests w)) faktabas objs)),
         w')
      /\ session_state w' = session_state w
      /\ requests w' = requests w ++ ((fun obj => prompt_of obj faktabas) <$> objs).
Proof.
  induction objs as [|obj objs IH]; intros mcqs_all w Hkey Hfb Hobjs.
  - exists w. by rewrite app_nil_r.
  - simpl in Hobjs. apply andb_prop in Hobjs as [Hobj Hobjs].
    destruct (mcq_loop_body_run mcqs_all obj faktabas key w Hkey Hfb Hobj)
      as (w1 & Hbody & Hst1 & Hreq1).
    destruct (IH (dict_set mcqs_all (title_of obj)
                    (mcqs_of limit
                       (endpoint (length (requests w)) (prompt_of obj faktabas))))
                 w1) as (w' & Hloop & Hst' & Hreq'); [by rewrite Hst1..|done|].
    exists w'. split_and!.
    + cbn [mcq_loop]. unfold bind. rewrite Hbody, Hloop. do 2 f_equal.
      unfold loop_results. rewrite imap_cons. unfold dict_update. simpl.
      rewrite Nat.add_0_r. f_equal. apply imap_ext. intros j x _. simpl.
      rewrite Hreq1, length_app. simpl. do 3 f_equal. lia.
    + by rewrite Hst', Hst1.
    + rewrite Hreq', Hreq1. by rewrite <- app_assoc.
Qed.

Lemma loop_results_lookup (n0 j : nat) (faktabas obj : value) (objs : list value) :
  objs !! j = Some obj ->
  loop_results limit endpoint n0 faktabas objs !! j =
    Some (title_of obj, mcqs_of limit (endpoint (n0 + j) (prompt_of obj faktabas))).
Proof. intros Hj. unfold loop_results. by rewrite list_lookup_imap, Hj. Qed.

Lemma loop_results_titles (n0 : nat) (faktabas : value) (objs : list value) :
  (loop_results limit endpoint n0 faktabas objs).*1 = title_of <$> objs.
Proof.
  unfold loop_results. rewrite fmap_imap.
  rewrite <- (imap_const title_of). by apply imap_ext.
Qed.

(** The last objective with a given title decides what is stored under
    it. *)
Lemma loop_results_stored (n0 j : nat) (faktabas obj : value) (objs : list value) :
  objs !! j = Some obj ->
  (forall j' obj', j < j' -> objs !! j' = Some obj' -> title_of obj' <> title_of obj) ->
  dict_lookup (dict_update [] (loop_results limit endpoint n0 faktabas objs))
              (title_of obj)
  = Some (mcqs_of limit (endpoint (n0 + j) (prompt_of obj faktabas))).
Proof.
  intros Hj Hlast. apply (dict_update_lookup_last _ _ j).
  - by apply loop_results_lookup.
  - intros j' [t v] Hlt Hj'. unfold loop_results in Hj'.
    rewrite list_lookup_imap in Hj'.
    destruct (objs !! j') as [obj'|] eqn:Hobj'; [|done].
    injection Hj' as <- _. by apply (Hlast j').
Qed.

(** The block under the questions button: it returns, stores the dict
    that the loop built, and sends one prompt per objective. *)
Lemma generate_all_mcqs_run (faktabas key : value) (objs : list value) (w : world) :
  session_state w !! "api_key"%string = Some key ->
  session_state w !! "faktabas"%string = Some faktabas ->
  session_state w !! "larandemal_och_indikatorer"%string = Some (JArray objs) ->
  forallb is_objective objs = true ->
  exists w',
    generate_all_mcqs limit endpoint w = (Return tt, w')
    /\ session_state w' =
         <["mcqs"%string :=
             JObject (dict_update []
                        (loop_results limit endpoint (length (requests w))
                           faktabas objs))]> (session_state w)
    /\ requests w' = requests w ++ ((fun obj => prompt_of obj faktabas) <$> objs).
Proof.
  intros Hkey Hfb Hstored Hobjs.
  destruct (mcq_loop_run faktabas key objs [] w Hkey Hfb Hobjs)
    as (w1 & Hloop & Hst1 & Hreq1).
  eexists. split.
  - unfold generate_all_mcqs. unfold bind at 1. unfold session_get at 1.
    rewrite Hstored. cbn [py_iter lift bind]. unfold bind. rewrite Hloop.
    reflexivity.
  - simpl. by rewrite Hst1, Hreq1.
Qed.

(** The prompt that [generate_learning_objectives] sends asks for
    [num_goals] objectives, whatever the endpoint then does. *)
Lemma objectives_prompt_sent (faktabas : str) (key : value) (w : world) :
  session_state w !! "api_key"%string = Some key ->
  requests (generate_learning_objectives limit endpoint (JString faktabas) w).2
  = requests w
    ++ [learning_objectives_prompt (num_goals (length faktabas)) (JString faktabas)].
Proof.
  intros Hkey.
  unfold generate_learning_objectives, create_openai_client, session_get.
  unfold bind at 1. rewrite Hkey. cbn [py_len lift bind].
  unfold try_except, create, bind.
  destruct (endpoint _ _) as [e|content]; [done|].
  destruct (read_reply content) as [[|c raw_output]|e]; [done| |done].
  cbn [lift]. by destruct (json_loads limit (c :: raw_output)).
Qed.

(** C5. When the reply for the objectives is empty after white-space
    trimming and fence stripping, [generate_learning_objectives] shows
    the "empty response" error and returns the empty list; it does not
    raise. *)
Theorem empty_reply_reported
    (faktabas : str) (key : value) (reply : str) (w : world) :
  let prompt :=
    learning_objectives_prompt (num_goals (length faktabas)) (JString faktabas) in
  session_state w !! "api_key"%string = Some key ->
  endpoint (length (requests w)) prompt = api_content (Some reply) ->
  strip_fences (strip reply) = Ok [] ->
  generate_learning_objectives limit endpoint (JString faktabas) w =
    (Return (JArray []), shown error_empty_response (sent prompt w)).
Proof.
  intros prompt Hkey Hreply Hempty.
  unfold generate_learning_objectives, create_openai_client, session_get.
  unfold bind at 1. rewrite Hkey. cbn [py_len lift bind]. fold prompt.
  unfold try_except, create, bind. rewrite Hreply. cbn [read_reply].
  by rewrite Hempty.
Qed.

(** C10. A reply that decodes as JSON is returned as decoded by both
    generators, whatever the decoded value is: an array of objects is
    not asked for, and a single object, a string or a number comes back
    as it is. Nothing is shown on the page. *)
Theorem decoded_value_returned_as_is
    (faktabas : str) (larandemal indikatorer key : value)
    (joined reply raw_output : str) (decoded_value : value) (w : world) :
  let objectives_prompt :=
    learning_objectives_prompt (num_goals (length faktabas)) (JString faktabas) in
  let questions_prompt := mcq_prompt larandemal joined (JString faktabas) in
  session_state w !! "api_key"%string = Some key ->
  join_indikatorer indikatorer = Ok joined ->
  endpoint (length (requests w)) objectives_prompt = api_content (Some reply) ->
  endpoint (length (requests w)) questions_prompt = api_content (Some reply) ->
  strip_fences (strip reply) = Ok raw_output ->
  json_loads limit raw_output = Ok decoded_value ->
  generate_learning_objectives limit endpoint (JString faktabas) w =
    (Return decoded_value, sent objectives_prompt w)
  /\ generate_mcq limit endpoint larandemal indikatorer (JString faktabas) w =
    (Return decoded_value, sent questions_prompt w).
Proof.
  intros objectives_prompt questions_prompt Hkey Hjoin Hobj Hmcq Hraw Hjson.
  split.
  - unfold generate_learning_objectives, create_openai_client, session_get.
    unfold bind at 1. rewrite Hkey. cbn [py_len lift bind]. fold objectives_prompt.
    unfold try_except, create, bind. rewrite Hobj. cbn [read_reply].
    rewrite Hraw. cbn [lift].
    destruct raw_output as [|c raw]; [by rewrite json_loads_empty in Hjson|].
    by rewrite Hjson.
  - rewrite (generate_mcq_run _ _ _ key joined w Hkey Hjoin).
    fold questions_prompt. unfold mcqs_of, decoded. rewrite Hmcq.
    cbn [read_reply]. by rewrite Hraw, Hjson.
Qed.

(** C4. In the question loop over objectives, a reply that fails to
    decode as JSON stores the empty list for its own objective only: the
    loop goes on, one prompt is sent for every objective, and what is
    stored for any other objective is what its own completion gives. *)
Theorem malformed_reply_isolated
    (faktabas key : value) (objs : list value) (w : world)
    (i : nat) (obj_i : value) (reply raw_output : str) (json_err : exn) :
  session_state w !! "api_key"%string = Some key ->
  session_state w !! "faktabas"%string = Some faktabas ->
  session_state w !! "larandemal_och_indikatorer"%string = Some (JArray objs) ->
  forallb is_objective objs = true ->
  objs !! i = Some obj_i ->
  endpoint (length (requests w) + i) (prompt_of obj_i faktabas)
    = api_content (Some reply) ->
  strip_fences (strip reply) = Ok raw_output ->
  json_loads limit raw_output = Raise json_err ->
  exists (mcqs_all : list (str * value)) (w' : world),
    generate_all_mcqs limit endpoint w = (Return tt, w')
    /\ session_state w' = <["mcqs"%string := JObject mcqs_all]> (session_state w)
    /\ requests w' = requests w ++ ((fun obj => prompt_of obj faktabas) <$> objs)
    /\ forall (j : nat) (obj_j : value),
         objs !! j = Some obj_j ->
         (forall j' obj', j < j' -> objs !! j' = Some obj' ->
                          title_of obj' <> title_of obj_j) ->
         dict_lookup mcqs_all (title_of obj_j) =
           Some (if decide (j = i) then JArray []
                 else mcqs_of limit
                        (endpoint (length (requests w) + j)
                                  (prompt_of obj_j faktabas))).
Proof.
  intros Hkey Hfb Hstored Hobjs Hi Hreply Hraw Hjson.
  destruct (generate_all_mcqs_run faktabas key objs w Hkey Hfb Hstored Hobjs)
    as (w' & Hrun & Hst & Hreq).
  eexists _, w'. split_and!; [done..|].
  intros j obj_j Hj Hlast.
  rewrite (loop_results_stored _ j _ obj_j) by done.
  case_decide as Hji; [|done]. subst j.
  assert (obj_j = obj_i) as -> by congruence.
  unfold mcqs_of, decoded. rewrite Hreply. cbn [read_reply].
  by rewrite Hraw, Hjson.
Qed.

(** C9. The MCQs are stored under the title of their objective: when
    two objectives have the same title, the later one's MCQs are what
    the loop leaves under that title, and the dict has one entry for
    each distinct title. *)
Theorem duplicate_title_overwrites
    (faktabas key : value) (objs : list value) (w : world)
    (i j : nat) (obj_i obj_j : value) :
  session_state w !! "api_key"%string = Some key ->
  session_state w !! "faktabas"%string = Some faktabas ->
  session_state w !! "larandemal_och_indikatorer"%string = Some (JArray objs) ->
  forallb is_objective objs = true ->
  objs !! i = Some obj_i ->
  objs !! j = Some obj_j ->
  i < j ->
  title_of obj_i = title_of obj_j ->
  (forall j' obj', j < j' -> objs !! j' = Some obj' ->
                   title_of obj' <> title_of obj_j) ->
  exists (mcqs_all : list (str * value)) (w' : world),
    generate_all_mcqs limit endpoint w = (Return tt, w')
    /\ session_state w' = <["mcqs"%string := JObject mcqs_all]> (session_state w)
    /\ dict_lookup mcqs_all (title_of obj_i) =
         Some (mcqs_of limit
                 (endpoint (length (requests w) + j) (prompt_of obj_j faktabas)))
    /\ NoDup (dict_keys mcqs_all)
    /\ (forall title, title ∈ dict_keys mcqs_all <-> title ∈ title_of <$> objs)
    /\ length mcqs_all = length (remove_dups (title_of <$> objs)).
Proof.
  intros Hkey Hfb Hstored Hobjs Hi Hj Hij Htitle Hlast.
  destruct (generate_all_mcqs_run faktabas key objs w Hkey Hfb Hstored Hobjs)
    as (w' & Hrun & Hst & Hreq).
  set (mcqs_all := dict_update [] _) in Hst.
  assert (NoDup (dict_keys mcqs_all)) as Hnodup.
  { apply dict_update_keys_NoDup. apply NoDup_nil_2. }
  assert (forall title, title ∈ dict_keys mcqs_all <-> title ∈ title_of <$> objs)
    as Hkeys.
  { intros title. unfold mcqs_all.
    rewrite dict_update_keys_elem, loop_results_titles.
    change (dict_keys []) with (@nil str). rewrite elem_of_nil. tauto. }
  exists mcqs_all, w'. split_and!; [done..| |done|done|].
  - rewrite Htitle. by apply loop_results_stored.
  - transitivity (length (dict_keys mcqs_all));
      [unfold dict_keys; by rewrite length_fmap|].
    apply Permutation_length, NoDup_Permutation;
      [done|apply NoDup_remove_dups|].
    intros title. by rewrite Hkeys, elem_of_remove_dups.
Qed.

End Generators.

(** ** Fences *)

(** *** White space at the ends *)

Lemma lstrip_app_keep (l : str) (c : char) :
  py_isspace c = false -> exists l', lstrip (l ++ [c]) = l' ++ [c].
Proof.
  intros Hc. induction l as [|x l IH]; simpl.
  - rewrite Hc. by exists [].
  - destruct (py_isspace x); [done|]. by exists (x :: l).
Qed.

(** A first character that is not white space stays first. *)
Lemma rstrip_cons_keep (c : char) (r : str) :
  py_isspace c = false -> exists r', rstrip (c :: r) = c :: r'.
Proof.
  intros Hc. unfold rstrip. simpl.
  destruct (lstrip_app_keep (rev r) c Hc) as [l' ->].
  exists (rev l'). by rewrite rev_app_distr.
Qed.

Lemma rstrip_snoc (s : str) (c : char) :
  py_isspace c = false -> rstrip (s ++ [c]) = s ++ [c].
Proof.
  intros Hc. unfold rstrip. rewrite rev_app_distr. simpl. rewrite Hc.
  simpl. by rewrite rev_involutive.
Qed.

(** Text between two characters that are not white space is its own
    [strip]. *)
Lemma strip_between (c z : char) (s : str) :
  py_isspace c = false -> py_isspace z = false ->
  strip (c :: s ++ [z]) = c :: s ++ [z].
Proof.
  intros Hc Hz. unfold strip. simpl. rewrite Hc.
  apply (rstrip_snoc (c :: s) z Hz).
Qed.

(** *** Lines *)

Lemma split_lf_nonempty (s : str) : split_lf s <> [].
Proof.
  induction s as [|c s IH]; simpl; [done|].
  destruct (c =? 10)%N; [done|]. by destruct (split_lf s).
Qed.

Lemma join_cons_line (c : char) (ls : list str) :
  ls <> [] -> join LF (cons_line c ls) = c :: join LF ls.
Proof. destruct ls as [|l [|l' ls]]; done. Qed.

(** Splitting at LF and joining with LF gives the text back. *)
Lemma join_split_lf (s : str) : join LF (split_lf s) = s.
Proof.
  induction s as [|c s IH]; [done|]. simpl.
  destruct (c =? 10)%N eqn:Hc.
  - apply N.eqb_eq in Hc as ->. pose proof (split_lf_nonempty s).
    destruct (split_lf s) as [|l ls] eqn:E; [done|]. simpl in *. by rewrite IH.
  - rewrite join_cons_line by apply split_lf_nonempty. by rewrite IH.
Qed.

(** A line without line boundaries, alone. *)
Lemma splitlines_one_line (l : str) :
  forallb (fun c => negb (py_islinebreak c)) l = true -> l <> [] ->
  splitlines l = [l].
Proof.
  induction l as [|c l IH]; [done|]. intros Hl _. simpl in Hl.
  apply andb_prop in Hl as [Hc Hl]. apply negb_true_iff in Hc.
  assert ((c =? 13)%N = false) as Hcr.
  { destruct (c =? 13)%N eqn:E; [|done]. apply N.eqb_eq in E as ->. done. }
  cbn [splitlines]. rewrite Hcr, Hc.
  destruct l as [|c' l]; [done|]. by rewrite IH.
Qed.

(** A line without line boundaries, closed by LF. *)
Lemma splitlines_line_lf (l rest : str) :
  forallb (fun c => negb (py_islinebreak c)) l = true ->
  splitlines (l ++ LF ++ rest) = l :: splitlines rest.
Proof.
  induction l as [|c l IH]; [done|]. intros Hl. simpl in Hl.
  apply andb_prop in Hl as [Hc Hl]. apply negb_true_iff in Hc.
  assert ((c =? 13)%N = false) as Hcr.
  { destruct (c =? 13)%N eqn:E; [|done]. apply N.eqb_eq in E as ->. done. }
  change ((c :: l) ++ LF ++ rest) with (c :: (l ++ LF ++ rest)).
  cbn [splitlines]. rewrite Hcr, Hc, (IH Hl).
  by destruct l.
Qed.

(** Text whose only line boundary is LF, before a last line. *)
Lemma splitlines_lf_only (s closing : str) :
  lf_only s = true ->
  forallb (fun c => negb (py_islinebreak c)) closing = true -> closing <> [] ->
  splitlines (s ++ LF ++ closing) = split_lf s ++ [closing].
Proof.
  intros Hs Hclosing Hne. induction s as [|c s IH].
  - simpl. by rewrite splitlines_one_line.
  - simpl in Hs. apply andb_prop in Hs as [Hc Hs]. specialize (IH Hs).
    change ((c :: s) ++ LF ++ closing) with (c :: (s ++ LF ++ closing)).
    cbn [splitlines split_lf]. destruct (c =? 10)%N eqn:Hlf.
    + apply N.eqb_eq in Hlf as ->. simpl. f_equal. exact IH.
    + rewrite orb_false_r in Hc. apply negb_true_iff in Hc.
      assert ((c =? 13)%N = false) as ->.
      { destruct (c =? 13)%N eqn:E; [|done]. apply N.eqb_eq in E as ->. done. }
      rewrite Hc, IH. pose proof (split_lf_nonempty s).
      destruct (s ++ LF ++ closing) eqn:E; [by destruct s|].
      by destruct (split_lf s).
Qed.

(** *** Fences around text whose only line boundary is LF *)

Lemma py_isspace_spec (c : char) :
  py_isspace c = true <->
  (9 <= c <= 13 \/ 28 <= c <= 32 \/ c = 133 \/ c = 160 \/ c = 5760
   \/ 8192 <= c <= 8202 \/ c = 8232 \/ c = 8233 \/ c = 8239 \/ c = 8287
   \/ c = 12288)%N.
Proof.
  unfold py_isspace.
  rewrite !orb_true_iff, !andb_true_iff, !N.leb_le, !N.eqb_eq. tauto.
Qed.

Lemma py_islinebreak_spec (c : char) :
  py_islinebreak c = true <->
  (10 <= c <= 13 \/ 28 <= c <= 30 \/ c = 133 \/ c = 8232 \/ c = 8233)%N.
Proof.
  unfold py_islinebreak.
  rewrite !orb_true_iff, !andb_true_iff, !N.leb_le, !N.eqb_eq. tauto.
Qed.

(** A line boundary is white space. *)
Lemma linebreak_isspace (c : char) :
  py_islinebreak c = true -> py_isspace c = true.
Proof. rewrite py_islinebreak_spec, py_isspace_spec. lia. Qed.

Lemma fence_chars : fence = [96; 96; 96]%N.
Proof. reflexivity. Qed.

Lemma startswith_nil (s : str) : startswith s [] = true.
Proof. by destruct s. Qed.

Lemma startswith_fence_inv (l : str) :
  startswith l fence = true -> exists l0, l = 96%N :: 96%N :: 96%N :: l0.
Proof.
  rewrite fence_chars.
  destruct l as [|a [|b [|c l]]]; cbn [startswith];
    rewrite ?andb_false_r; try done.
  rewrite startswith_nil, andb_true_r, !andb_true_iff, !N.eqb_eq.
  intros (-> & -> & ->). by exists l.
Qed.

Lemma fence_line_inv (l : str) :
  fence_line l = true ->
  startswith l fence = true
  /\ forallb (fun c => negb (py_islinebreak c)) l = true
  /\ exists l' z, l = 96%N :: l' ++ [z] /\ py_isspace z = false.
Proof.
  unfold fence_line. intros [Hstart Hspace]%andb_prop. split_and!; [done| |].
  - clear Hstart. induction l as [|c l IH]; [done|]. simpl in *.
    apply andb_prop in Hspace as [Hc Hl]. rewrite (IH Hl), andb_true_r.
    apply negb_true_iff in Hc. apply negb_true_iff.
    destruct (py_islinebreak c) eqn:E; [|done].
    apply linebreak_isspace in E. congruence.
  - destruct (startswith_fence_inv l Hstart) as [l0 ->].
    destruct (exists_last (l := 96%N :: 96%N :: l0)) as (l' & z & E); [done|].
    rewrite E. exists l', z. split; [done|].
    rewrite E in Hspace. simpl in Hspace.
    rewrite forallb_app in Hspace. apply andb_prop in Hspace as [_ Hz].
    simpl in Hz. rewrite andb_true_r in Hz. by apply negb_true_iff in Hz.
Qed.

(** Between two fence lines, text whose only line boundary is LF is read
    as its own [strip]. *)
Lemma read_fenced_lf (opening closing s : str) :
  fence_line opening = true -> fence_line closing = true -> lf_only s = true ->
  read_reply (Some (fenced opening closing s)) = Ok (strip s).
Proof.
  intros Ho Hc Hs.
  destruct (fence_line_inv opening Ho) as (Hos & Hol & _).
  destruct (fence_line_inv closing Hc) as (Hcs & Hcl & cl & z & Ecl & Hz).
  assert (closing <> []) as Hcne by (by rewrite Ecl).
  assert (strip (fenced opening closing s) = fenced opening closing s) as Hstrip.
  { destruct (startswith_fence_inv opening Hos) as [o ->].
    assert (fenced (96%N :: 96%N :: 96%N :: o) closing s =
            96%N :: ((96%N :: 96%N :: o) ++ LF ++ s ++ LF ++ 96%N :: cl) ++ [z])
      as ->.
    { unfold fenced. rewrite Ecl. simpl. do 3 f_equal.
      by repeat (rewrite <- ?app_assoc, <- ?app_comm_cons). }
    by apply strip_between. }
  unfold read_reply. rewrite Hstrip. unfold strip_fences.
  assert (startswith (fenced opening closing s) fence = true) as ->.
  { destruct (startswith_fence_inv opening Hos) as [o ->].
    rewrite fence_chars. unfold fenced. simpl. apply startswith_nil. }
  unfold fenced. rewrite (splitlines_line_lf opening _ Hol).
  rewrite (splitlines_lf_only s closing Hs Hcl Hcne).
  rewrite Hos. cbn [drop]. rewrite !drop_0.
  rewrite last_snoc, Hcs, length_app. simpl.
  replace (length (split_lf s) + 1 - 1) with (length (split_lf s)) by lia.
  by rewrite take_app_length, join_split_lf.
Qed.

(** *** What JSON starts with *)

Lemma scan_once_first (fuel depth : nat) (c : char) (r : str) (v : value)
    (rest : str) :
  scan_once fuel depth (c :: r) = Some (Ok (v, rest)) ->
  py_isspace c = false /\ c <> 96%N.
Proof.
  destruct fuel as [|fuel]; [done|]. intros H.
  destruct (decide (c ∈ [34; 123; 91; 110; 116; 102; 78; 73; 45]%N)) as [Hin|Hout].
  { rewrite !elem_of_cons in Hin.
    destruct Hin as [->|[->|[->|[->|[->|[->|[->|[->|[->|Hnil]]]]]]]]];
      [done..|by apply elem_of_nil in Hnil]. }
  destruct (is_digit c) eqn:Hd.
  { unfold is_digit in Hd. apply andb_prop in Hd as [H1 H2].
    apply N.leb_le in H1, H2. split; [|lia].
    destruct (py_isspace c) eqn:E; [|done].
    apply py_isspace_spec in E. lia. }
  exfalso. cbn [scan_once] in H.
  repeat match type of H with
    | context [py ?lit] =>
        let chars := eval vm_compute in (py lit) in
        change (py lit) with chars in H
    end.
  assert (forall x, x ∈ [34; 123; 91; 110; 116; 102; 78; 73; 45]%N ->
                    (c =? x)%N = false) as Hne.
  { intros x Hx. apply N.eqb_neq. intros ->. done. }
  cbn [startswith] in H.
  rewrite !Hne in H by (rewrite !elem_of_cons; tauto). cbn [andb] in H.
  unfold match_number in H. rewrite Hne in H by (rewrite !elem_of_cons; tauto).
  by rewrite Hd in H.
Qed.

Lemma lstrip_skip_ws (s r : str) (c : char) :
  skip_ws s = c :: r -> py_isspace c = false -> lstrip s = c :: r.
Proof.
  intros Hs Hc. induction s as [|x s IH]; [done|].
  cbn [skip_ws lstrip] in *. unfold skip_ws in Hs. fold skip_ws in Hs.
  destruct (is_json_ws x) eqn:Hx.
  - assert (py_isspace x = true) as ->; [|by apply IH].
    unfold is_json_ws in Hx. apply py_isspace_spec.
    rewrite !orb_true_iff, !N.eqb_eq in Hx. lia.
  - injection Hs as -> ->. by rewrite Hc.
Qed.

(** Text that decodes as JSON does not start with a fence, before and
    after [strip]. *)
Lemma json_not_fenced (limit : nat) (s : str) (v : value) :
  json_loads limit s = Ok v -> startswith (strip s) fence = false.
Proof.
  unfold json_loads. destruct (startswith s [65279%N]); [done|].
  destruct (scan_once _ _ (skip_ws s)) as [[[v' rest]|e]|] eqn:Hscan; [|done..].
  intros _. destruct (skip_ws s) as [|c r] eqn:Hws.
  { by destruct limit. }
  apply scan_once_first in Hscan as [Hspace Hfence].
  unfold strip. rewrite (lstrip_skip_ws s r c Hws Hspace).
  destruct (rstrip_cons_keep c r Hspace) as [r' ->].
  rewrite fence_chars. cbn [startswith].
  apply N.eqb_neq in Hfence. by rewrite Hfence.
Qed.

(** The statement of C2 with its scope narrowed to text whose only line
    boundary is LF: between two fence lines such JSON is read as the
    same text as without them, so both generators decode the same. *)
Lemma fenced_lf_reply_reads_alike (limit : nat) (opening closing s : str) (v : value) :
  fence_line opening = true -> fence_line closing = true -> lf_only s = true ->
  json_loads limit s = Ok v ->
  read_reply (Some (fenced opening closing s)) = read_reply (Some s).
Proof.
  intros Ho Hc Hs Hjson. rewrite read_fenced_lf by done.
  unfold read_reply, strip_fences. by rewrite (json_not_fenced limit s v Hjson).
Qed.

Lemma fenced_lf_reply_decodes_alike (limit : nat) (opening closing s : str)
    (v : value) :
  fence_line opening = true -> fence_line closing = true -> lf_only s = true ->
  json_loads limit s = Ok v ->
  decoded limit (api_content (Some (fenced opening closing s)))
  = decoded limit (api_content (Some s)).
Proof.
  intros Ho Hc Hs Hjson. unfold decoded.
  by rewrite (fenced_lf_reply_reads_alike limit opening closing s v).
Qed.

(** The same defect on a reply of the asked shape: a list of one
    question whose text has a line separator in it. *)
Example fenced_question_list_is_rejected :
  decoded 1000 (api_content (Some question_reply))
    = Ok (JArray [JObject [(py "fraga", JString line_separator_text)]])
  /\ decoded 1000 (api_content (Some (fenced (py "```json") fence question_reply)))
    = Raise JSONDecodeError.
Proof. split; vm_compute; reflexivity. Qed.

(** C2. A reply wrapped in code fences is meant to decode to the same
    value as the reply without them. The code misses this where the JSON
    has a line boundary other than LF inside a string. The reply
    ["a<U+2028>b"] is a JSON string, and without fences both generators
    return the text it denotes. Between a [```json] line and a [```]
    line the same reply is cut at the line separator by [splitlines] and
    joined again with LF; the decoder rejects the raw LF inside the
    string, and both generators show an error and return the empty
    list. *)
Theorem fenced_line_separator_is_rejected (limit : nat) :
  let bare := line_separator_literal in
  let wrapped := fenced (py "```json") fence line_separator_literal in
  let objectives reply :=
    generate_learning_objectives limit (scripted [api_content (Some reply)])
      (JString (py "facts")) sample_world in
  let questions reply :=
    generate_mcq limit (scripted [api_content (Some reply)])
      (JString (py "Lista A")) (JArray []) (JString (py "facts")) sample_world in
  json_loads limit bare = Ok (JString line_separator_text)
  /\ strip_fences (strip bare) = Ok bare
  /\ strip_fences (strip wrapped) = Ok [34; 97; 10; 98; 34]%N
  /\ (objectives bare).1 = Return (JString line_separator_text)
  /\ page (objectives bare).2 = []
  /\ (objectives wrapped).1 = Return (JArray [])
  /\ page (objectives wrapped).2 =
       [error_json JSONDecodeError; write_raw_output [34; 97; 10; 98; 34]%N]
  /\ (questions bare).1 = Return (JString line_separator_text)
  /\ page (questions bare).2 = []
  /\ (questions wrapped).1 = Return (JArray [])
  /\ page (questions wrapped).2 = [error_mcqs JSONDecodeError].
Proof. repeat split; vm_compute; reflexivity. Qed.

(** ** Instances *)

Lemma empty_reply_reported_witness :
  generate_learning_objectives 1000
    (scripted [api_content (Some (py "```json" ++ LF ++ py "```"))])
    (JString (py "facts")) sample_world
  = (Return (JArray []),
     shown error_empty_response
       (sent (learning_objectives_prompt 3 (JString (py "facts"))) sample_world)).
Proof.
  apply (empty_reply_reported 1000 _ (py "facts") (JString (py "sk"))
           (py "```json" ++ LF ++ py "```") sample_world);
    vm_compute; reflexivity.
Defined.

Lemma decoded_value_returned_as_is_witness :
  generate_learning_objectives 1000 (scripted [api_content (Some object_reply)])
    (JString (py "facts")) sample_world
  = (Return (JObject [(py "a", JInt 1)]),
     sent (learning_objectives_prompt 3 (JString (py "facts"))) sample_world)
  /\ generate_mcq 1000 (scripted [api_content (Some object_reply)])
       (JString (py "Lista A")) (JArray [JString (py "a1")])
       (JString (py "facts")) sample_world
     = (Return (JObject [(py "a", JInt 1)]),
        sent (mcq_prompt (JString (py "Lista A")) (py "a1") (JString (py "facts")))
             sample_world).
Proof.
  apply (decoded_value_returned_as_is 1000 _ (py "facts") (JString (py "Lista A"))
           (JArray [JString (py "a1")]) (JString (py "sk")) (py "a1")
           object_reply object_reply (JObject [(py "a", JInt 1)]) sample_world);
    vm_compute; reflexivity.
Defined.

Lemma extract_text_other_extension_witness :
  extract_text sample_markdown sample_world = (Return [], sample_world).
Proof.
  apply (extract_text_other_extension sample_markdown sample_world);
    vm_compute; reflexivity.
Defined.

Lemma upload_replaces_or_keeps_witness :
  upload (Some sample_pdf) sample_world =
    (Return tt,
     shown (success_upload (py "book.pdf"))
       (stored "faktabas" (JString (py "one" ++ LF))
          (shown (error_extract (ExternalError (py "bad page"))) sample_world)))
  /\ session_state (upload (Some sample_pdf) sample_world).2 !! "faktabas"%string
     = Some (JString (py "one" ++ LF)).
Proof.
  apply (upload_replaces_or_keeps sample_pdf sample_world
           (shown (error_extract (ExternalError (py "bad page"))) sample_world)
           (py "one" ++ LF)).
  vm_compute. reflexivity.
Defined.

Lemma malformed_reply_isolated_witness :
  exists (mcqs_all : list (str * value)) (w' : world),
    generate_all_mcqs 1000 (scripted sample_completions) sample_world
      = (Return tt, w')
    /\ session_state w' = <["mcqs"%string := JObject mcqs_all]> sample_session
    /\ length (requests w') = 3
    /\ dict_lookup mcqs_all (py "Redogor for B") = Some (JArray [])
    /\ dict_lookup mcqs_all (py "Lista A") = Some (JArray [JInt 3]).
Proof.
  destruct (malformed_reply_isolated 1000 (scripted sample_completions)
              (JString (py "facts")) (JString (py "sk")) sample_objectives
              sample_world 1 (objective "Redogor for B" [])
              (py "Sorry, no.") (py "Sorry, no.") JSONDecodeError)
    as (mcqs_all & w' & Hrun & Hst & Hreq & Hstored);
    try (vm_compute; reflexivity).
  exists mcqs_all, w'. split_and!; [done|done|by rewrite Hreq|..].
  - apply (Hstored 1 (objective "Redogor for B" [])); [reflexivity|].
    intros [|[|[|j']]] obj' Hlt Hlook; try lia; [|done].
    injection Hlook as <-. by vm_compute.
  - apply (Hstored 2 (objective "Lista A" ["a3"%string])); [reflexivity|].
    intros [|[|[|j']]] obj' Hlt Hlook; try lia; done.
Defined.

Lemma duplicate_title_overwrites_witness :
  exists (mcqs_all : list (str * value)) (w' : world),
    generate_all_mcqs 1000 (scripted sample_completions) sample_world
      = (Return tt, w')
    /\ dict_lookup mcqs_all (py "Lista A") = Some (JArray [JInt 3])
    /\ length mcqs_all = 2.
Proof.
  destruct (duplicate_title_overwrites 1000 (scripted sample_completions)
              (JString (py "facts")) (JString (py "sk")) sample_objectives
              sample_world 0 2 (objective "Lista A" ["a1"; "a2"]%string)
              (objective "Lista A" ["a3"%string]))
    as (mcqs_all & w' & Hrun & Hst & Hlast & Hnodup & Hkeys & Hlen);
    try (vm_compute; reflexivity); [lia| |].
  - intros [|[|[|j']]] obj' Hlt Hlook; try lia; done.
  - exists mcqs_all, w'. split_and!; [done|done|by rewrite Hlen].
Defined.

(** * Further properties of the script *)

(** ** The generators on every path *)

Section GeneratorPaths.
Variable limit : nat.
Variable endpoint : nat -> request -> completion.

(** What [generate_learning_objectives] does on a fact base that is a
    [str], by what the endpoint does. *)
Lemma generate_learning_objectives_run (faktabas : str) (key : value) (w : world) :
  session_state w !! "api_key"%string = Some key ->
  let prompt :=
    learning_objectives_prompt (num_goals (length faktabas)) (JString faktabas) in
  generate_learning_objectives limit endpoint (JString faktabas) w =
    match endpoint (length (requests w)) prompt with
    | api_raises e =>
        (Return (JArray []), shown (error_objectives e) (sent prompt w))
    | api_content content =>
        match read_reply content with
        | Raise e =>
            (Return (JArray []), shown (error_objectives e) (sent prompt w))
        | Ok [] =>
            (Return (JArray []), shown error_empty_response (sent prompt w))
        | Ok raw_output =>
            match json_loads limit raw_output with
            | Ok learning_objectives => (Return learning_objectives, sent prompt w)
            | Raise json_err =>
                (Return (JArray []),
                 shown (write_raw_output raw_output)
                       (shown (error_json json_err) (sent prompt w)))
            end
        end
    end.
Proof.
  intros Hkey prompt.
  unfold generate_learning_objectives, create_openai_client, session_get.
  unfold bind at 1. rewrite Hkey. cbn [py_len lift bind]. fold prompt.
  unfold try_except, create, bind.
  destruct (endpoint _ _) as [e|content]; [done|].
  destruct (read_reply content) as [[|c raw_output]|e]; [done| |done].
  cbn [lift]. by destruct (json_loads limit (c :: raw_output)).
Qed.



(** X3. Without a key in the session both generators raise [KeyError]
    from [create_openai_client], before anything is sent or shown. *)
Theorem generators_need_key
    (faktabas larandemal indikatorer : value) (w : world) :
  session_state w !! "api_key"%string = None ->
  generate_learning_objectives limit endpoint faktabas w = (Raised KeyError, w)
  /\ generate_mcq limit endpoint larandemal indikatorer faktabas w
     = (Raised KeyError, w).
Proof.
  intros Hkey.
  unfold generate_learning_objectives, generate_mcq, create_openai_client,
    session_get.
  split; unfold bind at 1; by rewrite Hkey.
Qed.

Lemma generate_mcq_raises_before_its_try
    (larandemal indikatorer faktabas key : value) (w : world) :
  session_state w !! "api_key"%string = Some key ->
  join_indikatorer indikatorer = Raise TypeError ->
  generate_mcq limit endpoint larandemal indikatorer faktabas w
  = (Raised TypeError, w).
Proof.
  intros Hkey Hjoin.
  unfold generate_mcq, create_openai_client, session_get, bind.
  by rewrite Hkey, Hjoin.
Qed.

(** X4. Indicators that cannot be joined with newlines make
    [generate_mcq] raise [TypeError] while it builds its prompt, outside
    its [try]: nothing is sent, nothing is shown, and the exception is
    not turned into an empty list. *)
Theorem questions_generation_raises_on_indicators
    (larandemal indikatorer faktabas key : value) (w : world) :
  session_state w !! "api_key"%string = Some key ->
  join_indikatorer indikatorer = Raise TypeError ->
  generate_mcq limit endpoint larandemal indikatorer faktabas w
  = (Raised TypeError, w).
Proof. apply generate_mcq_raises_before_its_try. Qed.

(** X5. An exception of the completion call does not leave either
    generator: each shows it under its own message and returns the
    empty list, after the one request, with no second try. *)
Theorem completion_failure_is_reported
    (faktabas : str) (larandemal indikatorer key : value) (joined : str)
    (e : exn) (w : world) :
  let objectives_prompt :=
    learning_objectives_prompt (num_goals (length faktabas)) (JString faktabas) in
  let questions_prompt := mcq_prompt larandemal joined (JString faktabas) in
  session_state w !! "api_key"%string = Some key ->
  join_indikatorer indikatorer = Ok joined ->
  endpoint (length (requests w)) objectives_prompt = api_raises e ->
  endpoint (length (requests w)) questions_prompt = api_raises e ->
  generate_learning_objectives limit endpoint (JString faktabas) w
    = (Return (JArray []), shown (error_objectives e) (sent objectives_prompt w))
  /\ generate_mcq limit endpoint larandemal indikatorer (JString faktabas) w
    = (Return (JArray []), shown (error_mcqs e) (sent questions_prompt w)).
Proof.
  intros objectives_prompt questions_prompt Hkey Hjoin Hobj Hmcq. split.
  - rewrite (generate_learning_objectives_run faktabas key w Hkey).
    fold objectives_prompt. by rewrite Hobj.
  - rewrite (generate_mcq_run limit endpoint _ _ _ key joined w Hkey Hjoin).
    fold questions_prompt. unfold mcqs_of, decoded. by rewrite Hmcq.
Qed.


(** X7. A reply whose content is [None] is reported by both generators
    as the [AttributeError] of the missing [strip]; the result is the
    empty list. *)
Theorem missing_content_is_reported
    (faktabas : str) (larandemal indikatorer key : value) (joined : str)
    (w : world) :
  let objectives_prompt :=
    learning_objectives_prompt (num_goals (length faktabas)) (JString faktabas) in
  let questions_prompt := mcq_prompt larandemal joined (JString faktabas) in
  session_state w !! "api_key"%string = Some key ->
  join_indikatorer indikatorer = Ok joined ->
  endpoint (length (requests w)) objectives_prompt = api_content None ->
  endpoint (length (requests w)) questions_prompt = api_content None ->
  generate_learning_objectives limit endpoint (JString faktabas) w
    = (Return (JArray []),
       shown (error_objectives AttributeError) (sent objectives_prompt w))
  /\ generate_mcq limit endpoint larandemal indikatorer (JString faktabas) w
    = (Return (JArray []),
       shown (error_mcqs AttributeError) (sent questions_prompt w)).
Proof.
  intros objectives_prompt questions_prompt Hkey Hjoin Hobj Hmcq. split.
  - rewrite (generate_learning_objectives_run faktabas key w Hkey).
    fold objectives_prompt. by rewrite Hobj.
  - rewrite (generate_mcq_run limit endpoint _ _ _ key joined w Hkey Hjoin).
    fold questions_prompt. unfold mcqs_of, decoded. by rewrite Hmcq.
Qed.

End GeneratorPaths.

(** ** Reading replies: edges of the fence stripping *)

Lemma splitlines_nonempty (s : str) : s <> [] -> splitlines s <> [].
Proof.
  destruct s as [|c r]; [done|]. intros _. cbn [splitlines]. unfold cons_line.
  repeat case_match; done.
Qed.

(** X8. The fence stripping never raises: a text that starts with the
    marker has a first line, so [lines[0]] is always there, and a reply
    with content is always read. *)
Theorem fence_stripping_never_raises (text : str) :
  exists raw_output, read_reply (Some text) = Ok raw_output.
Proof.
  unfold read_reply, strip_fences.
  destruct (startswith (strip text) fence) eqn:Hstart; [|by eexists].
  destruct (startswith_fence_inv _ Hstart) as [l0 Hl0].
  pose proof (splitlines_nonempty (strip text)) as Hne.
  destruct (splitlines (strip text)) as [|first lines]; [|by eexists].
  exfalso. apply Hne; [|done]. by rewrite Hl0.
Qed.

(** X9. A reply on one line that starts with the marker is read as the
    empty text, whatever else is on that line: the line is dropped as
    the opening fence and nothing is left. *)
Theorem one_line_fenced_reply_is_empty (text : str) :
  startswith (strip text) fence = true ->
  forallb (fun c => negb (py_islinebreak c)) (strip text) = true ->
  read_reply (Some text) = Ok [].
Proof.
  intros Hstart Hline. unfold read_reply, strip_fences. rewrite Hstart.
  rewrite splitlines_one_line; [|done|].
  - by rewrite Hstart.
  - destruct (startswith_fence_inv _ Hstart) as [l0 ->]. done.
Qed.

(** Text whose only line boundary is LF and which does not end in one
    splits at its LFs. *)
Lemma splitlines_lf_only_open (s : str) (z : char) :
  lf_only s = true -> last s = Some z -> py_islinebreak z = false ->
  splitlines s = split_lf s.
Proof.
  intros Hs Hlast Hz. induction s as [|c s IH]; [done|].
  simpl in Hs. apply andb_prop in Hs as [Hc Hs].
  cbn [splitlines split_lf]. destruct s as [|c' s].
  - injection Hlast as ->. rewrite Hz.
    assert ((z =? 13)%N = false) as ->.
    { destruct (z =? 13)%N eqn:E; [|done]. apply N.eqb_eq in E as ->. done. }
    destruct (z =? 10)%N eqn:E; [|done]. apply N.eqb_eq in E as ->. done.
  - specialize (IH Hs Hlast). destruct (c =? 10)%N eqn:Hlf.
    + apply N.eqb_eq in Hlf as ->.
      assert ((10 =? 13)%N = false) as -> by done.
      assert (py_islinebreak 10%N = true) as -> by done.
      by rewrite IH.
    + rewrite orb_false_r in Hc. apply negb_true_iff in Hc.
      assert ((c =? 13)%N = false) as ->.
      { destruct (c =? 13)%N eqn:E; [|done]. apply N.eqb_eq in E as ->. done. }
      by rewrite Hc, IH.
Qed.

(** X10. An opening fence that is never closed is still stripped: when
    the last line of the text under it does not start with the marker,
    only the first line goes, and the text (with LF as its only line
    boundary and not ending in white space) is read as it is. *)
Theorem unclosed_fence_is_stripped (opening s l : str) (z : char) :
  fence_line opening = true ->
  lf_only s = true ->
  last s = Some z -> py_isspace z = false ->
  last (split_lf s) = Some l -> startswith l fence = false ->
  read_reply (Some (opening ++ LF ++ s)) = Ok (strip s).
Proof.
  intros Ho Hs Hlast Hz Hl Hlfence.
  destruct (fence_line_inv opening Ho) as (Hos & Hol & _).
  destruct (startswith_fence_inv opening Hos) as [o Eo].
  assert (exists s0, s = s0 ++ [z]) as [s0 Es].
  { destruct (exists_last (l := s)) as (s0 & z' & E); [by destruct s|].
    rewrite E in Hlast. rewrite last_snoc in Hlast. injection Hlast as ->.
    by exists s0. }
  assert (strip (opening ++ LF ++ s) = opening ++ LF ++ s) as Hstrip.
  { set (t := opening ++ LF ++ s).
    assert (t = 96%N :: ((96%N :: 96%N :: o) ++ LF ++ s0) ++ [z]) as ->.
    { unfold t. rewrite Eo, Es. simpl. do 3 f_equal.
      by repeat (rewrite <- ?app_assoc, <- ?app_comm_cons). }
    by apply strip_between. }
  unfold read_reply. rewrite Hstrip. unfold strip_fences.
  assert (startswith (opening ++ LF ++ s) fence = true) as ->.
  { rewrite Eo, fence_chars. simpl. apply startswith_nil. }
  rewrite (splitlines_line_lf opening _ Hol).
  assert (py_islinebreak z = false) as Hzb.
  { destruct (py_islinebreak z) eqn:E; [|done].
    apply linebreak_isspace in E. congruence. }
  rewrite (splitlines_lf_only_open s z Hs Hlast Hzb).
  rewrite Hos. cbn [drop]. rewrite !drop_0, Hl, Hlfence.
  by rewrite join_split_lf.
Qed.

Lemma lstrip_app (t u : str) :
  lstrip (t ++ u) = match lstrip t with [] => lstrip u | _ :: _ => lstrip t ++ u end.
Proof.
  induction t as [|c t IH]; simpl; [by destruct (lstrip u)|].
  by destruct (py_isspace c).
Qed.

Lemma lstrip_spaces (ws : str) :
  Forall (fun c => py_isspace c = true) ws -> lstrip ws = [].
Proof. induction 1 as [|c ws Hc _ IH]; simpl; [done|]. by rewrite Hc. Qed.

Lemma rstrip_app_spaces (s ws : str) :
  Forall (fun c => py_isspace c = true) ws -> rstrip (s ++ ws) = rstrip s.
Proof.
  intros Hws. unfold rstrip. rewrite rev_app_distr, lstrip_app.
  rewrite (lstrip_spaces (rev ws)) by (by apply Forall_rev).
  by destruct (lstrip (rev s)).
Qed.

Lemma strip_surrounded (before text after : str) :
  Forall (fun c => py_isspace c = true) before ->
  Forall (fun c => py_isspace c = true) after ->
  strip (before ++ text ++ after) = strip text.
Proof.
  intros Hb Ha. unfold strip.
  rewrite lstrip_app, (lstrip_spaces before Hb).
  rewrite lstrip_app. destruct (lstrip text) as [|c t] eqn:E.
  - by rewrite (lstrip_spaces after Ha).
  - by apply rstrip_app_spaces.
Qed.

(** X11. White space around a reply does not matter: two replies that
    differ only in white space before and after are read alike, fences
    or not, so both generators treat them alike. *)
Theorem surrounding_white_space_is_ignored
    (limit : nat) (before text after : str) :
  Forall (fun c => py_isspace c = true) before ->
  Forall (fun c => py_isspace c = true) after ->
  read_reply (Some (before ++ text ++ after)) = read_reply (Some text)
  /\ decoded limit (api_content (Some (before ++ text ++ after)))
     = decoded limit (api_content (Some text)).
Proof.
  intros Hb Ha. unfold decoded, read_reply.
  by rewrite (strip_surrounded before text after Hb Ha).
Qed.

(** ** The number of objectives by length *)

(** X12. The number of objectives asked for is 3 below 4000 characters,
    8 from 8000 characters on, and the number of whole thousands in
    between; a longer fact base never asks for fewer objectives. *)
Theorem num_goals_by_length (text_length more : nat) :
  num_goals text_length =
    (if text_length <? 4000 then 3
     else if 8 * 1000 <=? text_length then 8 else text_length / 1000)
  /\ num_goals text_length <= num_goals (text_length + more).
Proof.
  unfold num_goals. split.
  - pose proof (Nat.div_mod_eq text_length 1000).
    pose proof (Nat.mod_upper_bound text_length 1000).
    destruct (Nat.ltb_spec text_length 4000),
      (Nat.leb_spec (8 * 1000) text_length);
      cbv beta iota; lia.
  - assert (text_length / 1000 <= (text_length + more) / 1000)
      by (apply Nat.Div0.div_le_mono; lia).
    lia.
Qed.

(** ** Upload *)

Lemma upload_run (file : uploaded_file) (w : world) :
  upload (Some file) w =
    (Return tt,
     let w1 := match (accumulated file).2 with
               | Some e => shown (error_extract e) w
               | None => w
               end in
     match (accumulated file).1 with
     | [] => shown error_no_text w1
     | (_ :: _) as faktabas =>
         shown (success_upload (name file))
               (stored "faktabas" (JString faktabas) w1)
     end).
Proof.
  unfold upload. unfold bind at 1. rewrite extract_text_run.
  by destruct (accumulated file) as [[|c text] [e|]].
Qed.

(** X13. An upload never raises and never calls the endpoint, and the
    only key of the session it can change is the fact base: objectives
    and questions generated from an earlier file stay as they are. What
    is under the fact base key afterwards is what was there before or a
    text that is not empty. *)
Theorem upload_touches_only_the_fact_base
    (uploaded : option uploaded_file) (w : world) :
  exists w',
    upload uploaded w = (Return tt, w')
    /\ requests w' = requests w
    /\ delete "faktabas"%string (session_state w')
       = delete "faktabas"%string (session_state w)
    /\ (session_state w' !! "faktabas"%string = session_state w !! "faktabas"%string
        \/ exists c text,
             session_state w' !! "faktabas"%string = Some (JString (c :: text))).
Proof.
  destruct uploaded as [file|]; [|exists w; split_and!; by try left].
  rewrite upload_run. eexists. split; [done|].
  destruct (accumulated file) as [[|c text] [e|]]; simpl;
    split_and!; try done; try (by left); try (by rewrite delete_insert_eq);
    right; exists c, text; by rewrite lookup_insert_eq.
Qed.

(** X14. A [.docx] file with at least one paragraph always gives a text
    that is not empty, because every paragraph adds a newline, an empty
    one too: the upload succeeds and the fact base is replaced even when
    the document holds no text. *)
Theorem docx_with_a_paragraph_is_accepted
    (file : uploaded_file) (para : str) (paragraphs : list (result str))
    (w : world) :
  endswith (name file) (py ".txt") = false ->
  endswith (name file) (py ".pdf") = false ->
  endswith (name file) (py ".docx") = true ->
  docx_paragraphs file = Ok (Ok para :: paragraphs) ->
  exists (text : str) (w' : world),
    upload (Some file) w = (Return tt, w')
    /\ session_state w' !! "faktabas"%string = Some (JString (para ++ LF ++ text))
    /\ last (page w') = Some (success_upload (name file)).
Proof.
  intros Htxt Hpdf Hdocx Hparas. rewrite upload_run.
  unfold accumulated. rewrite Htxt, Hpdf, Hdocx, Hparas. cbn [until_raise].
  destruct (until_raise paragraphs) as [before failure]. cbn [fst snd fmap list_fmap concat].
  exists (concat ((fun t => t ++ LF) <$> before)).
  assert ((para ++ LF) ++ concat ((fun t => t ++ LF) <$> before)
          = para ++ LF ++ concat ((fun t => t ++ LF) <$> before)) as Happ
    by (by rewrite <- app_assoc).
  destruct ((para ++ LF) ++ concat ((fun t => t ++ LF) <$> before))
    as [|c text] eqn:E.
  { by destruct para. }
  eexists. split; [done|]. rewrite <- Happ. split.
  - simpl. by rewrite lookup_insert_eq.
  - simpl. by rewrite last_snoc.
Qed.

Lemma until_raise_without_text (pages : list (result (option str))) :
  forallb page_without_text pages = true ->
  (until_raise pages).2 = None
  /\ concat (page_line <$> (until_raise pages).1) = [].
Proof.
  induction pages as [|page pages IH]; [done|]. simpl.
  intros [Hpage Hpages]%andb_prop. destruct (IH Hpages) as [IH2 IH1].
  destruct page as [[[|c t]|]|e]; try done;
    simpl; by destruct (until_raise pages).
Qed.

(** X15. A [.pdf] file none of whose pages has text (a scan, for one)
    gives the empty text without any extraction error: the upload shows
    the "could not extract" error alone and the session is left as it
    was. *)
Theorem pdf_without_text_is_refused
    (file : uploaded_file) (pages : list (result (option str))) (w : world) :
  endswith (name file) (py ".txt") = false ->
  endswith (name file) (py ".pdf") = true ->
  pdf_pages file = Ok pages ->
  forallb page_without_text pages = true ->
  upload (Some file) w = (Return tt, shown error_no_text w).
Proof.
  intros Htxt Hpdf Hpages Hnone. rewrite upload_run.
  unfold accumulated. rewrite Htxt, Hpdf, Hpages.
  destruct (until_raise_without_text pages Hnone) as [H2 H1].
  destruct (until_raise pages) as [before failure]. simpl in *.
  by rewrite H1, H2.
Qed.

(** X16. An extraction that fails after some text was read still
    replaces the fact base: the upload shows the extraction error, then
    success, and stores the part read before the failure. An extraction
    that fails before any text shows the extraction error, then the
    "could not extract" error, and stores nothing. *)
Theorem failed_extraction_on_upload
    (file : uploaded_file) (e : exn) (w : world) :
  (accumulated file).2 = Some e ->
  upload (Some file) w =
    (Return tt,
     match (accumulated file).1 with
     | [] => shown error_no_text (shown (error_extract e) w)
     | (_ :: _) as partial =>
         shown (success_upload (name file))
           (stored "faktabas" (JString partial) (shown (error_extract e) w))
     end).
Proof. intros He. rewrite upload_run, He. by destruct (accumulated file).1. Qed.

(** ** The generation steps of [main] *)

Section GenerationSteps.
Variable limit : nat.
Variable endpoint : nat -> request -> completion.

(** X17. A generation of objectives that fails, for whatever reason,
    stores the empty list: objectives generated before are lost, while
    the questions stored from them and the fact base stay. *)
Theorem failed_generation_clears_objectives
    (faktabas : str) (key : value) (e : exn) (w : world) :
  session_state w !! "api_key"%string = Some key ->
  session_state w !! "faktabas"%string = Some (JString faktabas) ->
  decoded limit
    (endpoint (length (requests w))
       (learning_objectives_prompt (num_goals (length faktabas)) (JString faktabas)))
    = Raise e ->
  exists w',
    generate_objectives limit endpoint w = (Return tt, w')
    /\ session_state w' =
         <["larandemal_och_indikatorer"%string := JArray []]> (session_state w).
Proof.
  intros Hkey Hfb Hfail. unfold generate_objectives. rewrite Hfb.
  unfold bind. rewrite (generate_learning_objectives_run limit endpoint faktabas key w Hkey).
  unfold decoded in Hfail.
  destruct (endpoint _ _) as [e'|content]; [by eexists|].
  destruct (read_reply content) as [[|c raw_output]|e']; [by eexists| |by eexists].
  rewrite Hfail. by eexists.
Qed.

Lemma mcq_loop_app (mcqs_all : list (str * value)) (objs1 objs2 : list value)
    (w : world) :
  mcq_loop limit endpoint mcqs_all (objs1 ++ objs2) w =
    match mcq_loop limit endpoint mcqs_all objs1 w with
    | (Return mcqs_all', w1) => mcq_loop limit endpoint mcqs_all' objs2 w1
    | (Raised e, w1) => (Raised e, w1)
    | (Unmodelled, w1) => (Unmodelled, w1)
    end.
Proof.
  revert mcqs_all w. induction objs1 as [|obj objs1 IH]; intros mcqs_all w; [done|].
  simpl. unfold bind.
  destruct (mcq_loop_body limit endpoint mcqs_all obj w) as [[acc|e|] w1];
    [|done..].
  apply IH.
Qed.

(** X18. Unlike a reply that does not decode, an objective whose
    indicators cannot be joined stops the question loop: the loop raises
    [TypeError] at that objective, after the prompts of the objectives
    before it were sent, and nothing is stored, so the questions of the
    earlier objectives of this run are lost and the map stored before
    stays. *)
Theorem unjoinable_indicators_stop_the_loop
    (faktabas key : value) (before after : list value)
    (fields : list (str * value)) (w : world) :
  session_state w !! "api_key"%string = Some key ->
  session_state w !! "faktabas"%string = Some faktabas ->
  session_state w !! "larandemal_och_indikatorer"%string
    = Some (JArray (before ++ JObject fields :: after)) ->
  forallb is_objective before = true ->
  join_indikatorer (dict_get fields (py "indikatorer") (JArray [])) = Raise TypeError ->
  exists w',
    generate_all_mcqs limit endpoint w = (Raised TypeError, w')
    /\ session_state w' = session_state w
    /\ requests w' = requests w ++ ((fun obj => prompt_of obj faktabas) <$> before).
Proof.
  intros Hkey Hfb Hstored Hbefore Hjoin.
  destruct (mcq_loop_run limit endpoint faktabas key before [] w Hkey Hfb Hbefore)
    as (w1 & Hloop & Hst1 & Hreq1).
  exists w1. split; [|done].
  unfold generate_all_mcqs. unfold bind at 1. unfold session_get at 1.
  rewrite Hstored. cbn [py_iter lift bind]. unfold bind at 1.
  rewrite mcq_loop_app, Hloop.
  cbn [mcq_loop]. unfold bind at 1. unfold mcq_loop_body.
  cbn [py_get lift bind]. unfold bind at 1. unfold session_get at 1.
  rewrite Hst1, Hfb. unfold bind at 1.
  rewrite (generate_mcq_raises_before_its_try limit endpoint _ _ _ key w1);
    [done|by rewrite Hst1|done].
Qed.

End GenerationSteps.

(** ** The page *)

Lemma bind_Return {S A B : Type} (m : M S A) (k : A -> M S B) (s s' : S) (a : A) :
  m s = (Return a, s') -> bind m k s = k a s'.
Proof. intros H. unfold bind. by rewrite H. Qed.

Lemma bind_Raised {S A B : Type} (m : M S A) (k : A -> M S B) (s s' : S) (e : exn) :
  m s = (Raised e, s') -> bind m k s = (Raised e, s').
Proof. intros H. unfold bind. by rewrite H. Qed.

Lemma reset_lookups (st : gmap string value) :
  reset st !! "faktabas"%string = None
  /\ reset st !! "larandemal_och_indikatorer"%string = None
  /\ reset st !! "mcqs"%string = None.
Proof. unfold reset. simpl. split_and!; by simplify_map_eq. Qed.

(** What [get_api_key] leaves: the key it returns, under its name. *)
Lemma get_api_key_run (ui : widgets) (a : app) :
  get_api_key ui a =
    (Return (text_input ui (default (JString []) (session a !! "api_key"%string))),
     App (<["api_key"%string :=
             JString (text_input ui
                        (default (JString []) (session a !! "api_key"%string)))]>
            (session a))
         (screen a ++ [input_api_key]) (sent_requests a)).
Proof.
  unfold get_api_key.
  destruct (session a !! "api_key"%string) as [key|] eqn:Hkey.
  - by rewrite Hkey.
  - rewrite lookup_insert_eq. simpl. by rewrite insert_insert_eq.
Qed.

Lemma step_upload_none (a : app) : step (upload None) a = (Return tt, a).
Proof. destruct a. unfold step. simpl. by rewrite app_nil_r. Qed.

Ltac subset_list :=
  let x := fresh "x" in
  intros x; rewrite !elem_of_cons, ?elem_of_nil; tauto.

(** Closes a goal from [Hin], which says that an element is in a list
    where it is not. *)
Ltac not_shown Hin :=
  rewrite ?elem_of_app, ?elem_of_cons, ?elem_of_nil, ?list_elem_of_fmap in Hin;
  decompose [or ex and] Hin; try discriminate; try contradiction.

Section PageProperties.
Variable limit : nat.
Variable endpoint : nat -> request -> completion.

(** [main] from the upload on, once the key is there. *)
Lemma main_with_key (ui : widgets) (a : app) (c : char) (api_key : str) :
  text_input ui (default (JString []) (session a !! "api_key"%string))
    = c :: api_key ->
  main limit endpoint ui a =
    (step (upload (file_uploader ui)) ;;;
     objectives_button limit endpoint ui ;;;
     objectives_section limit endpoint ui ;;;
     questions_section)
      (App (<["api_key"%string := JString (c :: api_key)]> (session a))
           (screen a ++ [input_api_key; subheader_upload; widget_file_uploader])
           (sent_requests a)).
Proof.
  intros Hinput. unfold main.
  rewrite (bind_Return _ _ _ _ _ (get_api_key_run ui a)), Hinput.
  unfold bind at 1. unfold bind at 1. unfold render, modify.
  cbn [session screen sent_requests]. by rewrite <- !app_assoc.
Qed.

(** X19. Without a key nothing else happens: when the key field comes
    back empty, [main] shows the field and the warning and returns. No
    file is read, no button is offered, nothing is sent, and the only
    change to the session is the empty key. *)
Theorem main_without_key_stops (ui : widgets) (a : app) :
  text_input ui (default (JString []) (session a !! "api_key"%string)) = [] ->
  main limit endpoint ui a =
    (Return tt,
     App (<["api_key"%string := JString []]> (session a))
         (screen a ++ [input_api_key; warning_api_key])
         (sent_requests a)).
Proof.
  intros Hinput. unfold main.
  rewrite (bind_Return _ _ _ _ _ (get_api_key_run ui a)), Hinput.
  unfold render, modify. cbn [session screen sent_requests].
  by rewrite <- app_assoc.
Qed.

Lemma sections_absent (ui : widgets) (a : app) :
  session a !! "faktabas"%string = None ->
  session a !! "larandemal_och_indikatorer"%string = None ->
  session a !! "mcqs"%string = None ->
  (objectives_button limit endpoint ui ;;;
   objectives_section limit endpoint ui ;;;
   questions_section) a = (Return tt, a).
Proof.
  intros Hfb Hobj Hmcq.
  unfold bind, objectives_button, objectives_section, questions_section.
  by rewrite Hfb, Hobj, Hmcq.
Qed.

(** X20. After a reset and without a new file the page can generate
    nothing: whatever the buttons report, the run shows at most the key
    field and the upload section, sends nothing, and leaves the three
    keys absent. This holds with and without [experimental_rerun]. *)
Theorem nothing_to_generate_after_reset
    (has_experimental_rerun : bool) (ui : widgets) (a : app) :
  starta_om ui = true ->
  file_uploader ui = None ->
  exists (run : run_end) (a' : app) (shown_after : list element),
    script limit endpoint has_experimental_rerun ui a = (Return run, a')
    /\ sent_requests a' = sent_requests a
    /\ session a' !! "faktabas"%string = None
    /\ session a' !! "larandemal_och_indikatorer"%string = None
    /\ session a' !! "mcqs"%string = None
    /\ screen a' = screen a ++ [page_title; button_reset] ++ shown_after
    /\ shown_after ⊆ [input_api_key; warning_api_key; subheader_upload;
                      widget_file_uploader].
Proof.
  intros Hreset Hfile. unfold script. rewrite Hreset.
  unfold bind at 1. unfold bind at 1. unfold bind at 1.
  unfold render, modify. cbn [session screen sent_requests].
  pose proof (reset_lookups (session a)) as (Hfb & Hobj & Hmcq).
  destruct has_experimental_rerun.
  { exists rerun. eexists _, []. split; [done|]. cbn [session screen sent_requests].
    rewrite <- !app_assoc. split_and!; try done. subset_list. }
  set (a1 := App (reset (session a)) ((screen a ++ [page_title]) ++ [button_reset])
                 (sent_requests a)).
  destruct (text_input ui (default (JString []) (session a1 !! "api_key"%string)))
    as [|c api_key] eqn:Hinput.
  - unfold bind at 1. unfold main.
    rewrite (bind_Return _ _ _ _ _ (get_api_key_run ui a1)), Hinput.
    unfold bind, render, modify. cbn [session screen sent_requests].
    exists finished. eexists _, [input_api_key; warning_api_key].
    split; [done|]. cbn [session screen sent_requests a1].
    rewrite !lookup_insert_ne by done. rewrite <- !app_assoc.
    split_and!; try done. subset_list.
  - unfold bind at 1. rewrite (main_with_key ui a1 c api_key Hinput), Hfile.
    rewrite (bind_Return _ _ _ _ _ (step_upload_none _)).
    rewrite sections_absent;
      [|cbn [session a1]; by rewrite lookup_insert_ne..].
    exists finished. eexists _, [input_api_key; subheader_upload; widget_file_uploader].
    split; [done|]. cbn [session screen sent_requests a1].
    rewrite !lookup_insert_ne by done. rewrite <- !app_assoc.
    split_and!; try done. subset_list.
Qed.

Lemma py_iter_cons_truthy (stored item : value) (items : list value) :
  py_iter stored = Ok (item :: items) -> truthy stored = true.
Proof.
  destruct stored as [| | | |s|l|d]; try done; simpl;
    intros [= H]; case_bool_decide; subst; done.
Qed.

(** X21. Stored objectives whose first item is not a dict break the
    page: a JSON object, a string, or a list of strings or numbers makes
    [main] raise [AttributeError] at the first [obj.get], right after
    the reference label. The questions button is never reached, nothing
    is sent, and every later run raises in the same place until the
    objectives are generated again or the session is reset. *)
Theorem objectives_that_are_not_dicts_break_the_page
    (ui : widgets) (a : app) (c : char) (api_key : str)
    (stored item : value) (items : list value) :
  text_input ui (default (JString []) (session a !! "api_key"%string))
    = c :: api_key ->
  file_uploader ui = None ->
  pressed_objectives ui = false ->
  session a !! "larandemal_och_indikatorer"%string = Some stored ->
  py_iter stored = Ok (item :: items) ->
  py_get item (py "referens") (JString []) = Raise AttributeError ->
  exists a',
    main limit endpoint ui a = (Raised AttributeError, a')
    /\ session a' = <["api_key"%string := JString (c :: api_key)]> (session a)
    /\ sent_requests a' = sent_requests a
    /\ last (screen a') = Some label_reference
    /\ button_questions ∉ drop (length (screen a)) (screen a').
Proof.
  intros Hinput Hfile Hpressed Hstored Hiter Hget.
  rewrite (main_with_key ui a c api_key Hinput), Hfile.
  rewrite (bind_Return _ _ _ _ _ (step_upload_none _)).
  set (a1 := App _ _ _).
  assert (exists shown_button,
            objectives_button limit endpoint ui a1 =
              (Return tt, App (session a1) (screen a1 ++ shown_button)
                              (sent_requests a1))
            /\ button_questions ∉ shown_button) as (shown_button & Hbutton & Hnot).
  { unfold objectives_button. destruct (session a1 !! "faktabas"%string).
    - exists [button_objectives]. rewrite Hpressed. split; [done|].
      by intros [=]%list_elem_of_singleton.
    - exists []. destruct a1. simpl. rewrite app_nil_r. split; [done|].
      apply not_elem_of_nil. }
  rewrite (bind_Return _ _ _ _ _ Hbutton).
  unfold bind at 1. unfold objectives_section. cbn [session].
  unfold a1 at 1. cbn [session]. rewrite lookup_insert_ne by done.
  rewrite Hstored, (py_iter_cons_truthy _ _ _ Hiter).
  unfold bind at 1. unfold render at 1, modify.
  unfold bind at 1. rewrite Hiter. cbn [lift display_objectives].
  unfold bind at 1. unfold display_objective.
  unfold bind at 1. unfold render at 1, modify.
  unfold bind at 1. rewrite Hget. cbn [lift].
  eexists. split; [done|]. cbn [session screen sent_requests a1].
  split_and!; try done.
  - by rewrite last_snoc.
  - rewrite <- !app_assoc, drop_app_length.
    intros Hin. not_shown Hin.
Qed.

(** What a generation of objectives leaves, whatever the endpoint does. *)
Lemma generate_objectives_run (faktabas : str) (key : value) (w : world) :
  session_state w !! "api_key"%string = Some key ->
  session_state w !! "faktabas"%string = Some (JString faktabas) ->
  let prompt :=
    learning_objectives_prompt (num_goals (length faktabas)) (JString faktabas) in
  exists w',
    generate_objectives limit endpoint w = (Return tt, w')
    /\ session_state w' =
         <["larandemal_och_indikatorer"%string :=
             match decoded limit (endpoint (length (requests w)) prompt) with
             | Ok learning_objectives => learning_objectives
             | Raise _ => JArray []
             end]>
           (session_state w)
    /\ requests w' = requests w ++ [prompt].
Proof.
  intros Hkey Hfb prompt. unfold generate_objectives. rewrite Hfb.
  unfold bind.
  rewrite (generate_learning_objectives_run limit endpoint faktabas key w Hkey).
  fold prompt. unfold decoded.
  destruct (endpoint _ _) as [e'|content]; [by eexists|].
  destruct (read_reply content) as [[|c raw_output]|e']; [by eexists| |by eexists].
  destruct (json_loads limit (c :: raw_output)); by eexists.
Qed.

(** X22. Questions outlive their objectives. When a new generation of
    objectives fails, the empty list is stored and the objectives
    section and the questions button are not shown, but the questions
    stored from the earlier objectives are still there and the run goes
    on to display them. *)
Theorem stale_questions_stay_on_display
    (ui : widgets) (a : app) (c : char) (api_key faktabas : str)
    (e : exn) (groups : list (str * value)) :
  let prompt :=
    learning_objectives_prompt (num_goals (length faktabas)) (JString faktabas) in
  text_input ui (default (JString []) (session a !! "api_key"%string))
    = c :: api_key ->
  file_uploader ui = None ->
  pressed_objectives ui = true ->
  session a !! "faktabas"%string = Some (JString faktabas) ->
  session a !! "mcqs"%string = Some (JObject groups) ->
  decoded limit (endpoint (length (sent_requests a)) prompt) = Raise e ->
  exists a1,
    main limit endpoint ui a = display_groups groups a1
    /\ session a1 !! "larandemal_och_indikatorer"%string = Some (JArray [])
    /\ session a1 !! "mcqs"%string = Some (JObject groups)
    /\ sent_requests a1 = sent_requests a ++ [prompt]
    /\ last (screen a1) = Some subheader_questions
    /\ (subheader_objectives ∉ drop (length (screen a)) (screen a1))
    /\ (button_questions ∉ drop (length (screen a)) (screen a1)).
Proof.
  intros prompt Hinput Hfile Hpressed Hfb Hmcqs Hfail.
  rewrite (main_with_key ui a c api_key Hinput), Hfile.
  rewrite (bind_Return _ _ _ _ _ (step_upload_none _)).
  set (a1 := App _ _ _).
  unfold bind at 1. unfold objectives_button. unfold a1 at 1. cbn [session].
  rewrite lookup_insert_ne by done. rewrite Hfb.
  unfold bind at 1. unfold render at 1, modify. rewrite Hpressed.
  unfold step at 1. cbn [session sent_requests a1].
  destruct (generate_objectives_run faktabas (JString (c :: api_key))
              (World (<["api_key"%string := JString (c :: api_key)]> (session a)) []
                     (sent_requests a)))
    as (w' & -> & Hst & Hreq).
  { cbn [session_state]. by rewrite lookup_insert_eq. }
  { cbn [session_state]. by rewrite lookup_insert_ne. }
  cbn [requests] in Hreq, Hst. cbn [session_state] in Hst.
  fold prompt in Hst. rewrite Hfail in Hst.
  unfold bind at 1. unfold objectives_section. cbn [session]. rewrite Hst.
  rewrite lookup_insert_eq. cbn [truthy]. rewrite bool_decide_eq_true_2 by done.
  cbn [negb]. unfold questions_section. cbn [session].
  rewrite !lookup_insert_ne by done. rewrite Hmcqs.
  unfold bind at 1. unfold render at 1, modify.
  unfold bind at 1. cbn [py_items lift].
  eexists. split; [done|]. cbn [session screen sent_requests a1].
  rewrite lookup_insert_eq, !lookup_insert_ne by done. rewrite Hreq.

  split_and!; try done.
  - by rewrite last_snoc.
  - rewrite <- !app_assoc, drop_app_length.
    intros Hin. not_shown Hin.
  - rewrite <- !app_assoc, drop_app_length.
    intros Hin. not_shown Hin.
Qed.

(** *** Every run is modelled *)

Lemma modelled_bind {S A B : Type} (m : M S A) (k : A -> M S B) :
  modelled m -> (forall x, modelled (k x)) -> modelled (bind m k).
Proof.
  intros Hm Hk s. unfold bind. specialize (Hm s).
  destruct (m s) as [[x|e|] s']; [apply Hk|done..].
Qed.

Lemma modelled_ret {S A : Type} (x : A) : modelled (ret (S:=S) x).
Proof. by intros s. Qed.

Lemma modelled_lift {S A : Type} (r : result A) : modelled (lift (S:=S) r).
Proof. intros s. by destruct r. Qed.

Lemma modelled_modify {S : Type} (f : S -> S) : modelled (modify f).
Proof. by intros s. Qed.

Lemma modelled_try_except {S A : Type} (body : M S A) (handler : exn -> M S A) :
  modelled body -> (forall e, modelled (handler e)) ->
  modelled (try_except body handler).
Proof.
  intros Hb Hh s. unfold try_except. specialize (Hb s).
  destruct (body s) as [[x|e|] s']; [done|apply Hh|done].
Qed.

Lemma modelled_session_get (key : string) : modelled (session_get key).
Proof. intros w. unfold session_get. by destruct (session_state w !! key). Qed.

Lemma modelled_create (client : value) (prompt : request) :
  modelled (create endpoint client prompt).
Proof. intros w. unfold create. by destruct (endpoint _ _). Qed.

Lemma modelled_step {A : Type} (m : M world A) : modelled m -> modelled (step m).
Proof.
  intros Hm a. unfold step.
  specialize (Hm (World (session a) [] (sent_requests a))).
  by destruct (m _) as [o w].
Qed.

Create HintDb modelled.
#[local] Hint Resolve modelled_ret modelled_lift modelled_modify
  modelled_session_get modelled_create : modelled.

Ltac modelled_steps :=
  repeat first
    [ apply modelled_bind; [|intros ?]
    | apply modelled_try_except; [|intros ?]
    | apply modelled_step
    | match goal with |- modelled (match ?x with _ => _ end) => destruct x end
    | progress eauto with modelled ].

Lemma modelled_generate_learning_objectives (faktabas : value) :
  modelled (generate_learning_objectives limit endpoint faktabas).
Proof.
  unfold generate_learning_objectives, create_openai_client, st_show.
  modelled_steps.
Qed.

Lemma modelled_generate_mcq (larandemal indikatorer faktabas : value) :
  modelled (generate_mcq limit endpoint larandemal indikatorer faktabas).
Proof.
  unfold generate_mcq, create_openai_client, st_show. modelled_steps.
Qed.

Lemma modelled_generate_objectives :
  modelled (generate_objectives limit endpoint).
Proof.
  intros w. unfold generate_objectives.
  destruct (session_state w !! "faktabas"%string) as [faktabas|]; [|done].
  apply modelled_bind; [apply modelled_generate_learning_objectives|].
  intros x. apply modelled_modify.
Qed.

(** The question loop on objectives whose titles are strings. *)
Lemma modelled_mcq_loop (objs : list value) :
  forallb has_str_title objs = true ->
  forall mcqs_all, modelled (mcq_loop limit endpoint mcqs_all objs).
Proof.
  induction objs as [|obj objs IH]; intros Hobjs mcqs_all; [apply modelled_ret|].
  simpl in Hobjs. apply andb_prop in Hobjs as [Hobj Hobjs].
  cbn [mcq_loop]. apply modelled_bind; [|intros ?; by apply IH].
  destruct obj as [| | | | | |fields]; try done.
  unfold has_str_title in Hobj. unfold mcq_loop_body. cbn [py_get].
  destruct (dict_get fields (py "larandemal") (JString [])) as [| | | |title| |];
    try done.
  intros w. unfold bind at 1. cbn [lift]. unfold bind at 1. cbn [lift].
  unfold bind at 1.
  pose proof (modelled_session_get "faktabas" w) as Hget.
  destruct (session_get "faktabas" w) as [[faktabas|e|] w1]; [|done..].
  unfold bind.
  pose proof (modelled_generate_mcq (JString title)
                (dict_get fields (py "indikatorer") (JArray [])) faktabas w1) as Hgen.
  by destruct (generate_mcq _ _ _ _ _ w1) as [[mcqs|e|] w2].
Qed.

Lemma render_items_run (el : value -> element) (xs : list value) (a : app) :
  render_items el xs a =
    (Return tt, App (session a) (screen a ++ (el <$> xs)) (sent_requests a)).
Proof.
  revert a. induction xs as [|x xs IH]; intros a.
  - destruct a. simpl. by rewrite app_nil_r.
  - cbn [render_items]. unfold bind, render, modify. rewrite IH.
    cbn [session screen sent_requests]. by rewrite <- app_assoc.
Qed.

(** An objective that is displayed without an exception has a title
    that is a string; the display leaves the session as it is and sends
    nothing. *)
Lemma display_objective_returns (obj : value) (a a' : app) :
  display_objective obj a = (Return tt, a') ->
  has_str_title obj = true
  /\ session a' = session a /\ sent_requests a' = sent_requests a.
Proof.
  unfold display_objective.
  unfold bind at 1. unfold render at 1, modify.
  destruct obj as [| | | | | |fields]; try done.
  cbn [py_get has_str_title].
  unfold bind at 1. cbn [lift].
  unfold bind at 1. unfold render at 1, modify.
  unfold bind at 1. cbn [lift].
  destruct (dict_get fields (py "larandemal") (JString [])) as [| | | |title| |];
    try done.
  unfold bind at 1. cbn [py_concat lift].
  unfold bind at 1. unfold render at 1, modify.
  unfold bind at 1. unfold render at 1, modify.
  unfold bind at 1. cbn [lift].
  unfold bind at 1.
  destruct (py_iter (dict_get fields (py "indikatorer") (JArray []))) as [inds|e];
    [|done].
  cbn [lift]. unfold bind at 1. rewrite render_items_run.
  unfold render, modify. cbn [session screen sent_requests].
  by intros [= <-].
Qed.

Lemma display_objectives_returns (objs : list value) :
  forall a a',
    display_objectives objs a = (Return tt, a') ->
    forallb has_str_title objs = true
    /\ session a' = session a /\ sent_requests a' = sent_requests a.
Proof.
  induction objs as [|obj objs IH]; intros a a' Hrun.
  - by injection Hrun as <-.
  - cbn [display_objectives] in Hrun. unfold bind in Hrun.
    destruct (display_objective obj a) as [[[]|e|] a1] eqn:Hobj; try done.
    apply display_objective_returns in Hobj as (Hobj & Hs1 & Hr1).
    apply IH in Hrun as (Hobjs & Hs & Hr).
    simpl. rewrite Hobj, Hobjs, Hs, Hr. done.
Qed.

Lemma modelled_render_items (el : value -> element) (xs : list value) :
  modelled (render_items el xs).
Proof. intros a. by rewrite render_items_run. Qed.

Lemma modelled_render (el : element) : modelled (render el).
Proof. apply modelled_modify. Qed.

#[local] Hint Resolve modelled_render modelled_render_items : modelled.

Lemma modelled_display_objectives (objs : list value) :
  modelled (display_objectives objs).
Proof.
  induction objs as [|obj objs IH]; [apply modelled_ret|].
  cbn [display_objectives]. apply modelled_bind; [|done].
  unfold display_objective. modelled_steps.
Qed.

Lemma modelled_display_mcq_list (mcqs : list value) :
  modelled (display_mcq_list mcqs).
Proof.
  induction mcqs as [|mcq mcqs IH]; [apply modelled_ret|].
  cbn [display_mcq_list]. apply modelled_bind; [|done].
  unfold display_mcq. modelled_steps.
Qed.

Lemma modelled_display_groups (groups : list (str * value)) :
  modelled (display_groups groups).
Proof.
  induction groups as [|[larandemal mcq_list] groups IH]; [apply modelled_ret|].
  cbn [display_groups]. modelled_steps. apply modelled_display_mcq_list.
Qed.

Lemma modelled_objectives_section (ui : widgets) :
  modelled (objectives_section limit endpoint ui).
Proof.
  intros a. unfold objectives_section.
  destruct (session a !! "larandemal_och_indikatorer"%string) as [stored|] eqn:Hst;
    [|done].
  destruct (truthy stored); [|done].
  unfold bind at 1. unfold render at 1, modify.
  unfold bind at 1.
  destruct (py_iter stored) as [objs|e] eqn:Hiter; [|done].
  cbn [lift]. unfold bind at 1.
  pose proof (modelled_display_objectives objs
                (App (session a) (screen a ++ [subheader_objectives])
                     (sent_requests a))) as Hdisplay.
  destruct (display_objectives objs _) as [[[]|e|] a1] eqn:Hrun; [|done..].
  apply display_objectives_returns in Hrun as (Hobjs & Hs & Hr).
  cbn [session] in Hs.
  unfold bind at 1. unfold render at 1, modify.
  destruct (pressed_questions ui); [|done].
  unfold step. cbn [session screen sent_requests fst].
  set (w := World _ _ _).
  assert ((generate_all_mcqs limit endpoint w).1 <> Unmodelled) as Hgen.
  { unfold generate_all_mcqs. unfold bind at 1. unfold session_get at 1.
    unfold w at 1. cbn [session_state]. rewrite Hs, Hst.
    unfold bind at 1. rewrite Hiter. cbn [lift].
    unfold bind.
    pose proof (modelled_mcq_loop objs Hobjs [] w) as Hloop.
    by destruct (mcq_loop limit endpoint [] objs w) as [[mcqs_all|e|] w1]. }
  by destruct (generate_all_mcqs limit endpoint w) as [o w1].
Qed.

Lemma modelled_main (ui : widgets) : modelled (main limit endpoint ui).
Proof.
  unfold main. apply modelled_bind.
  { intros a. by rewrite get_api_key_run. }
  intros [|c api_key]; [apply modelled_render|].
  repeat (apply modelled_bind; [|intros _]); try apply modelled_render.
  - apply modelled_step. unfold upload.
    destruct (file_uploader ui) as [file|]; [|apply modelled_ret].
    apply modelled_bind.
    + intros w. by rewrite extract_text_run.
    + intros [|c' faktabas]; unfold session_set, st_show; modelled_steps.
  - intros a. unfold objectives_button.
    destruct (session a !! "faktabas"%string); [|done].
    unfold bind, render, modify. destruct (pressed_objectives ui); [|done].
    apply modelled_step, modelled_generate_objectives.
  - apply modelled_objectives_section.
  - intros a. unfold questions_section.
    destruct (session a !! "mcqs"%string) as [stored|]; [|done].
    revert a. modelled_steps. apply modelled_display_groups.
Qed.


(** *** The order of the groups *)

Lemma dict_update_keys {V : Type} (pairs : list (str * V)) :
  forall d : list (str * V),
    dict_keys (dict_update d pairs) =
      foldl (fun seen x => if decide (x ∈ seen) then seen else seen ++ [x])
            (dict_keys d) pairs.*1.
Proof.
  induction pairs as [|[k v] pairs IH]; intros d; [done|].
  unfold dict_update in *. simpl. by rewrite IH, dict_keys_set.
Qed.

(** X24. The questions are stored under the distinct titles of the
    objectives, each title at the place of its first objective: that is
    the order in which the page shows the groups, and an objective that
    repeats a title adds no group. One prompt is sent for every
    objective all the same. *)
Theorem groups_follow_first_occurrences
    (faktabas key : value) (objs : list value) (w : world) :
  session_state w !! "api_key"%string = Some key ->
  session_state w !! "faktabas"%string = Some faktabas ->
  session_state w !! "larandemal_och_indikatorer"%string = Some (JArray objs) ->
  forallb is_objective objs = true ->
  exists w' groups,
    generate_all_mcqs limit endpoint w = (Return tt, w')
    /\ session_state w' !! "mcqs"%string = Some (JObject groups)
    /\ dict_keys groups = first_occurrences (title_of <$> objs)
    /\ NoDup (dict_keys groups)
    /\ length (requests w') = length (requests w) + length objs.
Proof.
  intros Hkey Hfb Hstored Hobjs.
  destruct (generate_all_mcqs_run limit endpoint faktabas key objs w
              Hkey Hfb Hstored Hobjs) as (w' & Hrun & Hst & Hreq).
  exists w'. eexists. split; [done|]. rewrite Hst, Hreq, lookup_insert_eq.
  split_and!; [done| | |].
  - by rewrite dict_update_keys, loop_results_titles.
  - apply dict_update_keys_NoDup, NoDup_nil_2.
  - by rewrite length_app, length_fmap.
Qed.

(** *** A file and a button in one run *)

(** X25. A file and the objectives button in one run: the upload comes
    first, so the prompt is built from the text of the new file, not
    from the fact base stored before. When the rest of [main] starts,
    the new text is the fact base, the upload is confirmed on the page,
    one request was sent, and the objectives are the decoded reply, or
    the empty list when there is none. *)
Theorem new_file_is_used_in_the_same_run
    (ui : widgets) (a : app) (c : char) (api_key : str)
    (file : uploaded_file) (c' : char) (text : str) :
  let faktabas := c' :: text in
  let prompt :=
    learning_objectives_prompt (num_goals (length faktabas)) (JString faktabas) in
  text_input ui (default (JString []) (session a !! "api_key"%string))
    = c :: api_key ->
  file_uploader ui = Some file ->
  (accumulated file).1 = faktabas ->
  pressed_objectives ui = true ->
  exists a1,
    main limit endpoint ui a =
      (objectives_section limit endpoint ui ;;; questions_section) a1
    /\ session a1 !! "faktabas"%string = Some (JString faktabas)
    /\ session a1 !! "larandemal_och_indikatorer"%string =
         Some match decoded limit (endpoint (length (sent_requests a)) prompt) with
              | Ok learning_objectives => learning_objectives
              | Raise _ => JArray []
              end
    /\ sent_requests a1 = sent_requests a ++ [prompt]
    /\ message (success_upload (name file)) ∈ screen a1.
Proof.
  intros faktabas prompt Hinput Hfile Htext Hpressed.
  rewrite (main_with_key ui a c api_key Hinput), Hfile.
  unfold bind at 1. unfold step at 1. rewrite upload_run, Htext.
  subst prompt faktabas. cbn [session screen sent_requests].
  set (w1 := match (accumulated file).2 with Some _ => _ | None => _ end).
  assert (session_state w1 = <["api_key"%string := JString (c :: api_key)]> (session a)
          /\ requests w1 = sent_requests a) as [Hst1 Hreq1].
  { unfold w1. by destruct (accumulated file).2. }
  cbn [shown stored session_state page requests]. rewrite Hst1, Hreq1.
  unfold bind at 1. unfold objectives_button. cbn [session].
  rewrite lookup_insert_eq.
  unfold bind at 1. unfold render at 1, modify. rewrite Hpressed.
  unfold step at 1. cbn [session sent_requests].
  set (w2 := World _ _ _).
  destruct (generate_objectives_run (c' :: text) (JString (c :: api_key)) w2)
    as (w' & -> & Hst & Hreq).
  { unfold w2. cbn [session_state]. by rewrite lookup_insert_ne, lookup_insert_eq. }
  { unfold w2. cbn [session_state]. by rewrite lookup_insert_eq. }
  unfold w2 in Hst, Hreq. cbn [session_state requests] in Hst, Hreq.
  eexists. split; [reflexivity|]. cbn [session screen sent_requests].
  rewrite Hst, Hreq. split_and!.
  - by rewrite lookup_insert_ne, lookup_insert_eq.
  - by rewrite lookup_insert_eq.
  - done.
  - rewrite fmap_app, !elem_of_app. left. left. right. right.
    by apply list_elem_of_singleton.
Qed.

(** *** The objectives on display *)

Lemma join_indikatorer_iter (indikatorer : value) (joined : str) :
  join_indikatorer indikatorer = Ok joined ->
  exists inds, py_iter indikatorer = Ok inds.
Proof. destruct indikatorer; try done; by eexists. Qed.

Lemma shown_titles_app (els1 els2 : list element) :
  shown_titles (els1 ++ els2) = shown_titles els1 ++ shown_titles els2.
Proof. apply omap_app. Qed.

Lemma shown_titles_indicators (inds : list value) :
  shown_titles (indicator <$> inds) = [].
Proof. by induction inds. Qed.

(** The display of one objective with a title and indicators. *)
Lemma display_objective_run (obj : value) (a : app) :
  is_objective obj = true ->
  exists shown,
    display_objective obj a =
      (Return tt, App (session a) (screen a ++ shown) (sent_requests a))
    /\ shown_titles shown = [title_of obj].
Proof.
  destruct obj as [| | | | | |fields]; try done.
  unfold is_objective, title_of, display_objective. cbn [py_get].
  destruct (dict_get fields (py "larandemal") (JString [])) as [| | | |title| |];
    try done.
  destruct (join_indikatorer (dict_get fields (py "indikatorer") (JArray [])))
    as [joined|] eqn:Hjoin; [|done].
  apply join_indikatorer_iter in Hjoin as [inds Hiter]. intros _.
  exists ([label_reference;
           reference (dict_get fields (py "referens") (JString []));
           objective_title title; label_indicators]
          ++ (indicator <$> inds) ++ [rule]).
  split.
  - unfold bind, render, modify. cbn [py_concat lift]. rewrite Hiter. cbn [lift].
    rewrite render_items_run. cbn [session screen sent_requests].
    by rewrite <- !app_assoc.
  - rewrite !shown_titles_app, shown_titles_indicators. done.
Qed.

Lemma display_objectives_run (objs : list value) :
  forall a,
    forallb is_objective objs = true ->
    exists shown,
      display_objectives objs a =
        (Return tt, App (session a) (screen a ++ shown) (sent_requests a))
      /\ shown_titles shown = title_of <$> objs.
Proof.
  induction objs as [|obj objs IH]; intros a Hobjs.
  - exists []. destruct a. simpl. by rewrite app_nil_r.
  - simpl in Hobjs. apply andb_prop in Hobjs as [Hobj Hobjs].
    destruct (display_objective_run obj a Hobj) as (shown1 & Hrun1 & Ht1).
    destruct (IH (App (session a) (screen a ++ shown1) (sent_requests a)) Hobjs)
      as (shown2 & Hrun2 & Ht2).
    exists (shown1 ++ shown2). split.
    + cbn [display_objectives]. unfold bind. rewrite Hrun1, Hrun2.
      cbn [session screen sent_requests]. by rewrite <- app_assoc.
    + by rewrite shown_titles_app, Ht1, Ht2.
Qed.


End PageProperties.

(** ** Instances of the further properties *)



Lemma generators_need_key_witness :
  generate_learning_objectives 1000 (scripted []) (JString (py "facts"))
    (World ∅ [] []) = (Raised KeyError, World ∅ [] [])
  /\ generate_mcq 1000 (scripted []) (JString (py "Lista A")) (JArray [])
       (JString (py "facts")) (World ∅ [] [])
     = (Raised KeyError, World ∅ [] []).
Proof.
  apply (generators_need_key 1000 (scripted []) (JString (py "facts"))
           (JString (py "Lista A")) (JArray []) (World ∅ [] [])).
  reflexivity.
Defined.

Lemma questions_generation_raises_on_indicators_witness :
  generate_mcq 1000 (scripted [api_content (Some (py "[1]"))])
    (JString (py "Lista A")) (JInt 3) (JString (py "facts")) sample_world
  = (Raised TypeError, sample_world).
Proof.
  apply (questions_generation_raises_on_indicators 1000
           (scripted [api_content (Some (py "[1]"))]) (JString (py "Lista A"))
           (JInt 3) (JString (py "facts")) (JString (py "sk")) sample_world);
    vm_compute; reflexivity.
Defined.

Lemma completion_failure_is_reported_witness :
  generate_learning_objectives 1000 (scripted []) (JString (py "facts")) sample_world
    = (Return (JArray []),
       shown (error_objectives (ExternalError []))
         (sent (learning_objectives_prompt 3 (JString (py "facts"))) sample_world))
  /\ generate_mcq 1000 (scripted []) (JString (py "Lista A"))
       (JArray [JString (py "a1")]) (JString (py "facts")) sample_world
    = (Return (JArray []),
       shown (error_mcqs (ExternalError []))
         (sent (mcq_prompt (JString (py "Lista A")) (py "a1") (JString (py "facts")))
               sample_world)).
Proof.
  apply (completion_failure_is_reported 1000 (scripted []) (py "facts")
           (JString (py "Lista A")) (JArray [JString (py "a1")])
           (JString (py "sk")) (py "a1") (ExternalError []) sample_world);
    vm_compute; reflexivity.
Defined.


Lemma missing_content_is_reported_witness :
  generate_learning_objectives 1000 (scripted [api_content None])
    (JString (py "facts")) sample_world
    = (Return (JArray []),
       shown (error_objectives AttributeError)
         (sent (learning_objectives_prompt 3 (JString (py "facts"))) sample_world))
  /\ generate_mcq 1000 (scripted [api_content None]) (JString (py "Lista A"))
       (JArray [JString (py "a1")]) (JString (py "facts")) sample_world
    = (Return (JArray []),
       shown (error_mcqs AttributeError)
         (sent (mcq_prompt (JString (py "Lista A")) (py "a1") (JString (py "facts")))
               sample_world)).
Proof.
  apply (missing_content_is_reported 1000 (scripted [api_content None]) (py "facts")
           (JString (py "Lista A")) (JArray [JString (py "a1")])
           (JString (py "sk")) (py "a1") sample_world);
    vm_compute; reflexivity.
Defined.

Lemma one_line_fenced_reply_is_empty_witness :
  read_reply (Some (py "```[1]```")) = Ok [].
Proof.
  apply (one_line_fenced_reply_is_empty (py "```[1]```")); vm_compute; reflexivity.
Defined.

Lemma unclosed_fence_is_stripped_witness :
  read_reply (Some (py "```json" ++ LF ++ py "[1]")) = Ok (strip (py "[1]")).
Proof.
  apply (unclosed_fence_is_stripped (py "```json") (py "[1]") (py "[1]") 93%N);
    vm_compute; reflexivity.
Defined.

Lemma surrounding_white_space_is_ignored_witness :
  read_reply (Some ([32%N] ++ py "[1]" ++ [10%N])) = read_reply (Some (py "[1]"))
  /\ decoded 1000 (api_content (Some ([32%N] ++ py "[1]" ++ [10%N])))
     = decoded 1000 (api_content (Some (py "[1]"))).
Proof.
  apply (surrounding_white_space_is_ignored 1000 [32%N] (py "[1]") [10%N]);
    repeat constructor.
Defined.

Lemma docx_with_a_paragraph_is_accepted_witness :
  exists (text : str) (w' : world),
    upload (Some sample_docx) sample_world = (Return tt, w')
    /\ session_state w' !! "faktabas"%string = Some (JString ([] ++ LF ++ text))
    /\ last (page w') = Some (success_upload (py "empty.docx")).
Proof.
  apply (docx_with_a_paragraph_is_accepted sample_docx [] [] sample_world);
    vm_compute; reflexivity.
Defined.

Lemma pdf_without_text_is_refused_witness :
  upload (Some sample_scan) sample_world
  = (Return tt, shown error_no_text sample_world).
Proof.
  apply (pdf_without_text_is_refused sample_scan [Ok None; Ok (Some [])]
           sample_world);
    vm_compute; reflexivity.
Defined.

Lemma failed_extraction_on_upload_witness :
  upload (Some sample_pdf) sample_world =
    (Return tt,
     shown (success_upload (py "book.pdf"))
       (stored "faktabas" (JString (py "one" ++ LF))
          (shown (error_extract (ExternalError (py "bad page"))) sample_world))).
Proof.
  apply (failed_extraction_on_upload sample_pdf (ExternalError (py "bad page"))
           sample_world).
  vm_compute. reflexivity.
Defined.

Lemma failed_generation_clears_objectives_witness :
  exists w',
    generate_objectives 1000 (scripted []) sample_world = (Return tt, w')
    /\ session_state w' =
         <["larandemal_och_indikatorer"%string := JArray []]> sample_session.
Proof.
  apply (failed_generation_clears_objectives 1000 (scripted []) (py "facts")
           (JString (py "sk")) (ExternalError []) sample_world);
    vm_compute; reflexivity.
Defined.

Lemma unjoinable_indicators_stop_the_loop_witness :
  let w :=
    World (<["larandemal_och_indikatorer"%string :=
               JArray [objective "Lista A" ["a1"%string];
                       JObject [(py "indikatorer", JInt 3)];
                       objective "Redogor for B" []]]> sample_session) [] [] in
  exists w',
    generate_all_mcqs 1000 (scripted sample_completions) w = (Raised TypeError, w')
    /\ session_state w' = session_state w
    /\ length (requests w') = 1.
Proof.
  intros w.
  destruct (unjoinable_indicators_stop_the_loop 1000 (scripted sample_completions)
              (JString (py "facts")) (JString (py "sk"))
              [objective "Lista A" ["a1"%string]] [objective "Redogor for B" []]
              [(py "indikatorer", JInt 3)] w)
    as (w' & Hrun & Hst & Hreq); [vm_compute; reflexivity..|].
  exists w'. split_and!; [done|done|by rewrite Hreq].
Defined.

Lemma main_without_key_stops_witness :
  main 1000 (scripted []) (sample_widgets EmptyString None false true true) sample_app
  = (Return tt,
     App (<["api_key"%string := JString []]> sample_session)
         [input_api_key; warning_api_key] []).
Proof.
  apply (main_without_key_stops 1000 (scripted [])
           (sample_widgets EmptyString None false true true) sample_app).
  reflexivity.
Defined.

Lemma nothing_to_generate_after_reset_witness :
  exists (run : run_end) (a' : app),
    script 1000 (scripted []) false (sample_widgets "sk" None true true true)
      sample_app = (Return run, a')
    /\ sent_requests a' = []
    /\ session a' !! "faktabas"%string = None.
Proof.
  destruct (nothing_to_generate_after_reset 1000 (scripted []) false
              (sample_widgets "sk" None true true true) sample_app)
    as (run & a' & shown_after & Hrun & Hreq & Hfb & _); [reflexivity..|].
  by exists run, a'.
Defined.

Lemma objectives_that_are_not_dicts_break_the_page_witness :
  exists a',
    main 1000 (scripted []) (sample_widgets "sk" None false false true)
      sample_app_with_numbers = (Raised AttributeError, a')
    /\ sent_requests a' = []
    /\ last (screen a') = Some label_reference.
Proof.
  destruct (objectives_that_are_not_dicts_break_the_page 1000 (scripted [])
              (sample_widgets "sk" None false false true) sample_app_with_numbers
              115%N (py "k") (JArray [JInt 3]) (JInt 3) [])
    as (a' & Hrun & _ & Hreq & Hlast & _); [vm_compute; reflexivity..|].
  by exists a'.
Defined.

Lemma stale_questions_stay_on_display_witness :
  exists a1,
    main 1000 (scripted []) (sample_widgets "sk" None false true false)
      sample_app_with_questions = display_groups sample_groups a1
    /\ session a1 !! "larandemal_och_indikatorer"%string = Some (JArray [])
    /\ session a1 !! "mcqs"%string = Some (JObject sample_groups).
Proof.
  destruct (stale_questions_stay_on_display 1000 (scripted [])
              (sample_widgets "sk" None false true false) sample_app_with_questions
              115%N (py "k") (py "facts") (ExternalError []) sample_groups)
    as (a1 & Hrun & Hobjs & Hmcqs & _); [vm_compute; reflexivity..|].
  by exists a1.
Defined.

Lemma groups_follow_first_occurrences_witness :
  exists w' groups,
    generate_all_mcqs 1000 (scripted sample_completions) sample_world
      = (Return tt, w')
    /\ session_state w' !! "mcqs"%string = Some (JObject groups)
    /\ dict_keys groups = [py "Lista A"; py "Redogor for B"]
    /\ length (requests w') = 3.
Proof.
  destruct (groups_follow_first_occurrences 1000 (scripted sample_completions)
              (JString (py "facts")) (JString (py "sk")) sample_objectives
              sample_world)
    as (w' & groups & Hrun & Hst & Hkeys & _ & Hreq); [vm_compute; reflexivity..|].
  exists w', groups. split_and!; [done|done|by rewrite Hkeys|by rewrite Hreq].
Defined.

Lemma new_file_is_used_in_the_same_run_witness :
  exists a1,
    main 1000 (scripted [api_content (Some (py "[1]"))])
      (sample_widgets "sk" (Some sample_text_file) false true false) sample_app
    = (objectives_section 1000 (scripted [api_content (Some (py "[1]"))])
         (sample_widgets "sk" (Some sample_text_file) false true false) ;;;
       questions_section) a1
    /\ session a1 !! "faktabas"%string = Some (JString (py "new facts"))
    /\ sent_requests a1 = [learning_objectives_prompt 3 (JString (py "new facts"))].
Proof.
  destruct (new_file_is_used_in_the_same_run 1000
              (scripted [api_content (Some (py "[1]"))])
              (sample_widgets "sk" (Some sample_text_file) false true false)
              sample_app 115%N (py "k") sample_text_file 110%N (py "ew facts"))
    as (a1 & Hrun & Hfb & _ & Hreq & _); [vm_compute; reflexivity..|].
  by exists a1.
Defined.

